(** * C4 diagram generators (C1.py, C2.py, C3.py, C4.py): a shallow embedding

    The Python classes [C4ContextDiagram], [C4ContainerDiagram] and
    [C4ComponentDiagram] are modelled one [Module] each. C4.py, which
    defines [C4CodeDiagram], does not compile (an unclosed parenthesis on
    line 240): it is modelled as its source text and the tokenizer pass that
    rejects it, so that importing it raises [SyntaxError].

    Modelling conventions.
    - A diagram object is a record; a method that mutates [self] is a
      computation of the state-and-exception monad [PyM]: the state that the
      method leaves behind is kept also when it raises, as in Python.
    - [generate] only reads the diagram; its drawing work is recorded as a
      list of [effect]s (directory creation, matplotlib calls, [savefig])
      in the writer-and-exception monad [Gen]: an exception keeps the effects
      performed before it.
    - JSON documents are the [json] trees that [json.dumps] prints and
      [json.loads] reads back; [to_json] returns the tree and [from_json]
      takes the parsed tree (the source accepts a parsed [dict] as well).
    - Python floats are modelled exactly in [Q]; numpy's
      [np.cos(np.radians(a))] and [np.sin(np.radians(a))] are left abstract
      as section variables [cosd] and [sind].
    - Arguments typed [str] by the source are [option string] where the
      source checks them ([None] is the absent value); optional strings are
      [option string]. JSON values of another type than the one a parameter
      is annotated with are outside the model and reported as [TypeError]. *)

From Stdlib Require Import QArith Qround String Ascii.
From stdpp Require Import base list gmap strings.
From Stdlib Require Import Lqa.

Local Set Warnings "-register-all".

(* ------------------------------------------------------------------ *)
(** ** Python values and exceptions *)

Inductive json : Type :=
| JNull
| JBool (b : bool)
| JInt (z : Z)
| JStr (s : string)
| JArr (l : list json)
| JObj (kvs : list (string * json)).

Inductive pyerr : Type :=
| ValueError (msg : string)
| KeyError (key : string)
| TypeError
| ZeroDivisionError
(** raised at compile time, with the line Python reports *)
| SyntaxError (msg : string) (lineno : nat).

Inductive res (A : Type) : Type :=
| Ok (a : A)
| Err (e : pyerr).
Arguments Ok {A} a.
Arguments Err {A} e.

Global Instance res_ret : MRet res := fun A a => Ok a.
Global Instance res_bind : MBind res :=
  fun A B f r => match r with Ok a => f a | Err e => Err e end.

(** [d[k]] and [d.get(k, default)] on a parsed JSON object: a key that
    occurs twice keeps its last value, as [json.loads] does. *)
Definition obj_lookup (k : string) (kvs : list (string * json)) : option json :=
  fold_left (fun acc kv => if String.eqb k kv.1 then Some kv.2 else acc) kvs None.

Definition getitem (kvs : list (string * json)) (k : string) : res json :=
  match obj_lookup k kvs with Some v => Ok v | None => Err (KeyError k) end.

Definition get (kvs : list (string * json)) (k : string) (dflt : json) : json :=
  match obj_lookup k kvs with Some v => v | None => dflt end.

(** Python truthiness of an optional string. *)
Definition truthy (o : option string) : bool :=
  match o with Some s => negb (String.eqb s "") | None => false end.

Definition json_of_opt (o : option string) : json :=
  match o with Some s => JStr s | None => JNull end.

Definition as_opt_str (v : json) : res (option string) :=
  match v with JNull => Ok None | JStr s => Ok (Some s) | _ => Err TypeError end.

Definition as_str (v : json) : res string :=
  match v with JStr s => Ok s | _ => Err TypeError end.

Definition as_bool (v : json) : res bool :=
  match v with JBool b => Ok b | _ => Err TypeError end.

Definition nl : string := String (ascii_of_nat 10) EmptyString.

(* ------------------------------------------------------------------ *)
(** ** Mutating methods: state and exceptions *)

Definition PyM (S A : Type) : Type := S -> S * res A.

Global Instance PyM_ret S : MRet (PyM S) := fun A a s => (s, Ok a).
Global Instance PyM_bind S : MBind (PyM S) :=
  fun A B f m s =>
    match m s with
    | (s', Ok a) => f a s'
    | (s', Err e) => (s', Err e)
    end.

Definition raise {S A} (e : pyerr) : PyM S A := fun s => (s, Err e).
Definition modify {S} (f : S -> S) : PyM S unit := fun s => (f s, Ok tt).
Definition lift {S A} (r : res A) : PyM S A := fun s => (s, r).
Definition gets {S A} (f : S -> A) : PyM S A := fun s => (s, Ok (f s)).

(** [for x in l: body(x)] *)
Fixpoint for_ {M} `{MRet M, MBind M} {A} (body : A -> M unit) (l : list A)
  : M unit :=
  match l with
  | [] => mret tt
  | x :: l' => body x ;; for_ body l'
  end.

(** [for x in v: ...] where [v] came out of a JSON document. *)
Definition for_json {S} (body : json -> PyM S unit) (v : json) : PyM S unit :=
  match v with
  | JArr l => for_ body l
  | _ => raise TypeError
  end.

(** The effect of an object method on a state, and its outcome. *)
Definition exec {S A} (m : PyM S A) (s : S) : S := (m s).1.
Definition outcome {S A} (m : PyM S A) (s : S) : res A := (m s).2.

(* ------------------------------------------------------------------ *)
(** ** [generate]: drawing effects, writer and exceptions *)

Inductive prim : Type :=
| Title (s : string)
(** [ax.text(x, y, s, bbox=...)]; the box is (facecolor, edgecolor) *)
| Text (x y : Q) (s : string) (bbox : option (string * string))
(** [ax.annotate("", xy=tip, xytext=tail, arrowprops=...)] *)
| Arrow (tip tail : Q * Q) (arrowstyle linestyle color : string) (rad : Q)
(** [patches.Rectangle((x, y), w, h, ...)] *)
| Rect (x y w h : Q) (facecolor edgecolor : string).

Inductive effect : Type :=
| Mkdir (dir : string)
| Draw (p : prim)
| Savefig (path fmt : string)
| Close.

Definition Gen (A : Type) : Type := list effect * res A.

Global Instance Gen_ret : MRet Gen := fun A a => ([], Ok a).
Global Instance Gen_bind : MBind Gen :=
  fun A B f m =>
    match m with
    | (w, Ok a) => let '(w', r) := f a in (w ++ w', r)
    | (w, Err e) => (w, Err e)
    end.

Definition emit (e : effect) : Gen unit := ([e], Ok tt).
Definition draw (p : prim) : Gen unit := emit (Draw p).
Definition throw {A} (e : pyerr) : Gen A := ([], Err e).

Definition output_dir : string := "diagrams_output".
Definition formats : list string := ["png"; "jpg"; "svg"; "pdf"].

Definition check_format (fmt : string) : Gen unit :=
  if existsb (String.eqb fmt) formats then mret tt
  else throw (ValueError ("Unsupported output format: " +:+ fmt)).

(** [os.path.join(output_dir, f"{output_filename}.{output_format}")] *)
Definition output_path (fn fmt : string) : string :=
  output_dir +:+ "/" +:+ fn +:+ "." +:+ fmt.

(** [plt.savefig(...)], [plt.close()], [return output_path] *)
Definition save (fn fmt : string) : Gen string :=
  emit (Savefig (output_path fn fmt) fmt) ;; emit Close ;;
  mret (output_path fn fmt).

(** Python's [/]: a zero divisor raises. *)
Definition py_div (a b : Q) : res Q :=
  if Qeq_bool b 0 then Err ZeroDivisionError else Ok (a / b)%Q.

Definition lift_res {A} (r : res A) : Gen A := ([], r).

(** [enumerate(l)] *)
Definition enumerate {A} (l : list A) : list (nat * A) :=
  zip (seq 0 (length l)) l.

Definition Qnat (n : nat) : Q := inject_Z (Z.of_nat n).

(* ------------------------------------------------------------------ *)
(** ** Level 1: [C4ContextDiagram] (C1.py) *)

Module Context.

Record user := mk_user {
  u_name : string; u_description : option string; u_role : option string }.

Record external_system := mk_external_system {
  x_name : string; x_description : option string; x_protocol : option string }.

Record relationship := mk_relationship {
  source : string; target : string; label : string; bidirectional : bool }.

Record diagram := mk_diagram {
  system_name : string;
  output_filename : string;
  users : list user;
  external_systems : list external_system;
  relationships : list relationship }.

(** [C4ContextDiagram(system_name, output_filename)] *)
Definition init (sys fn : string) : diagram := mk_diagram sys fn [] [] [].

Definition set_system_name (s : string) (d : diagram) : diagram :=
  mk_diagram s (output_filename d) (users d) (external_systems d) (relationships d).
Definition push_user (u : user) (d : diagram) : diagram :=
  mk_diagram (system_name d) (output_filename d) (users d ++ [u])
    (external_systems d) (relationships d).
Definition push_external_system (x : external_system) (d : diagram) : diagram :=
  mk_diagram (system_name d) (output_filename d) (users d)
    (external_systems d ++ [x]) (relationships d).
Definition push_relationship (r : relationship) (d : diagram) : diagram :=
  mk_diagram (system_name d) (output_filename d) (users d)
    (external_systems d) (relationships d ++ [r]).

Definition add_user (name description role : option string) : PyM diagram unit :=
  match name with
  | Some n => if truthy name then modify (push_user (mk_user n description role))
              else raise (ValueError "User name cannot be empty")
  | None => raise (ValueError "User name cannot be empty")
  end.

Definition add_external_system (name description protocol : option string)
  : PyM diagram unit :=
  match name with
  | Some n =>
      if truthy name
      then modify (push_external_system (mk_external_system n description protocol))
      else raise (ValueError "External system name cannot be empty")
  | None => raise (ValueError "External system name cannot be empty")
  end.

Definition add_relationship (source target label : option string)
  (bidirectional : bool) : PyM diagram unit :=
  match source, target, label with
  | Some s, Some t, Some l =>
      if truthy source && truthy target && truthy label
      then modify (push_relationship (mk_relationship s t l bidirectional))
      else raise (ValueError "Source, target and label cannot be empty")
  | _, _, _ => raise (ValueError "Source, target and label cannot be empty")
  end.

(** The body of [from_json]'s three loops. *)
Definition load_user (v : json) : PyM diagram unit :=
  match v with
  | JObj o =>
      n ← lift (getitem o "name" ≫= as_opt_str);
      de ← lift (as_opt_str (get o "description" JNull));
      r ← lift (as_opt_str (get o "role" JNull));
      add_user n de r
  | _ => raise TypeError
  end.

Definition load_external_system (v : json) : PyM diagram unit :=
  match v with
  | JObj o =>
      n ← lift (getitem o "name" ≫= as_opt_str);
      de ← lift (as_opt_str (get o "description" JNull));
      p ← lift (as_opt_str (get o "protocol" JNull));
      add_external_system n de p
  | _ => raise TypeError
  end.

Definition load_relationship (v : json) : PyM diagram unit :=
  match v with
  | JObj o =>
      s ← lift (getitem o "source" ≫= as_opt_str);
      t ← lift (getitem o "target" ≫= as_opt_str);
      l ← lift (getitem o "label" ≫= as_opt_str);
      b ← lift (as_bool (get o "bidirectional" (JBool false)));
      add_relationship s t l b
  | _ => raise TypeError
  end.

(** [if key in json_data: ...] *)
Definition if_key (o : list (string * json)) (k : string)
  (body : json -> PyM diagram unit) : PyM diagram unit :=
  match obj_lookup k o with Some v => body v | None => mret tt end.

Definition from_json (doc : json) : PyM diagram unit :=
  match doc with
  | JObj o =>
      if_key o "system_name" (fun v => s ← lift (as_str v); modify (set_system_name s)) ;;
      if_key o "users" (for_json load_user) ;;
      if_key o "external_systems" (for_json load_external_system) ;;
      if_key o "relationships" (for_json load_relationship)
  | _ => raise TypeError
  end.

Definition user_to_json (u : user) : json :=
  JObj [("name", JStr (u_name u)); ("description", json_of_opt (u_description u));
        ("role", json_of_opt (u_role u))].
Definition external_system_to_json (x : external_system) : json :=
  JObj [("name", JStr (x_name x)); ("description", json_of_opt (x_description x));
        ("protocol", json_of_opt (x_protocol x))].
Definition relationship_to_json (r : relationship) : json :=
  JObj [("source", JStr (source r)); ("target", JStr (target r));
        ("label", JStr (label r)); ("bidirectional", JBool (bidirectional r))].

(** The public add-operations, as calls a client can make. *)
Inductive op : Type :=
| AddUser (name description role : option string)
| AddExternalSystem (name description protocol : option string)
| AddRelationship (source target label : option string) (bidirectional : bool).

Definition run_op (o : op) : PyM diagram unit :=
  match o with
  | AddUser n de r => add_user n de r
  | AddExternalSystem n de p => add_external_system n de p
  | AddRelationship s t l b => add_relationship s t l b
  end.

Definition run_ops (os : list op) : PyM diagram unit := for_ run_op os.

Definition to_json (d : diagram) : json :=
  JObj [("system_name", JStr (system_name d));
        ("users", JArr (map user_to_json (users d)));
        ("external_systems", JArr (map external_system_to_json (external_systems d)));
        ("relationships", JArr (map relationship_to_json (relationships d)))].

(** [_find_relationship]: the first relationship from [src] to [tgt], or a
    bidirectional one from [tgt] to [src]. *)
Fixpoint find_relationship (src tgt : string) (rels : list relationship)
  : option relationship :=
  match rels with
  | [] => None
  | r :: rs =>
      if String.eqb (source r) src && String.eqb (target r) tgt then Some r
      else if bidirectional r && String.eqb (source r) tgt && String.eqb (target r) src
      then Some r
      else find_relationship src tgt rs
  end.

Definition find_relationship_label (src tgt : string) (rels : list relationship)
  : option string :=
  match find_relationship src tgt rels with Some r => Some (label r) | None => None end.

(** [vertical_spacing = 10 / max(1, max_elements)] *)
Definition vertical_spacing (d : diagram) : Q :=
  let max_elements := max (max (length (users d)) (length (external_systems d))) 1 in
  (10 / Qnat (max 1 max_elements))%Q.

(** [y_offset = (idx - len(group)/2) * vertical_spacing] *)
Definition y_offset (idx n : nat) (spacing : Q) : Q :=
  ((Qnat idx - Qnat n / 2) * spacing)%Q.

Definition draw_user (d : diagram) (iu : nat * user) : Gen unit :=
  let '(idx, u) := iu in
  let y := y_offset idx (length (users d)) (vertical_spacing d) in
  let user_label :=
    match u_role u with
    | Some r => if truthy (Some r) then u_name u +:+ nl +:+ "(" +:+ r +:+ ")" else u_name u
    | None => u_name u
    end in
  draw (Text (-5)%Q y user_label (Some ("#e0f7fa", "blue"))) ;;
  draw (Arrow ((-1.5)%Q, (y * 0.2)%Q) ((-4)%Q, y) "->" "-" "blue" 0) ;;
  match find_relationship_label (u_name u) (system_name d) (relationships d) with
  | Some l => if truthy (Some l) then draw (Text (-2.5)%Q (y * 0.6)%Q l None) else mret tt
  | None => mret tt
  end.

Definition draw_external_system (d : diagram) (ix : nat * external_system) : Gen unit :=
  let '(idx, x) := ix in
  let y := y_offset idx (length (external_systems d)) (vertical_spacing d) in
  let system_label :=
    match x_protocol x with
    | Some p => if truthy (Some p) then x_name x +:+ nl +:+ "(" +:+ p +:+ ")" else x_name x
    | None => x_name x
    end in
  draw (Text 5 y system_label (Some ("#e8f5e9", "green"))) ;;
  let rel := find_relationship (system_name d) (x_name x) (relationships d) in
  let '(arrowstyle, direction) :=
    match rel with
    | Some r =>
        if bidirectional r then ("<->", 1%Q)
        else if String.eqb (source r) (x_name x) then ("->", (-1)%Q)
        else ("->", 1%Q)
    | None => ("->", 1%Q)
    end in
  draw (Arrow ((1.5 * direction)%Q, (y * 0.2)%Q) ((4 * direction)%Q, y)
          arrowstyle "-" "green" 0) ;;
  match rel with
  | Some r => draw (Text (2.5 * direction)%Q (y * 0.6)%Q (label r) None)
  | None => mret tt
  end.

Definition generate (d : diagram) (output_format : string) : Gen string :=
  check_format output_format ;;
  emit (Mkdir output_dir) ;;
  draw (Title ("Context Diagram: " +:+ system_name d)) ;;
  draw (Text 0 0 (system_name d) (Some ("#f0f0f0", "black"))) ;;
  for_ (draw_user d) (enumerate (users d)) ;;
  for_ (draw_external_system d) (enumerate (external_systems d)) ;;
  save (output_filename d) output_format.

End Context.

(** [for idx, x in enumerate(l): acc = body(acc, (idx, x))] *)
Fixpoint fold_gen {A B} (body : A -> B -> Gen A) (acc : A) (l : list B) : Gen A :=
  match l with
  | [] => mret acc
  | x :: l' => acc' ← body acc x; fold_gen body acc' l'
  end.

Abbreviation positions := (gmap string (Q * Q)).

Definition midpoint (p q : Q * Q) : Q * Q :=
  (((p.1 + q.1) / 2)%Q, ((p.2 + q.2) / 2)%Q).

(** [" (" + protocol + ")"] appended when the protocol is truthy. *)
Definition with_protocol (lbl : string) (protocol : option string) : string :=
  match protocol with
  | Some p => if truthy (Some p) then lbl +:+ " (" +:+ p +:+ ")" else lbl
  | None => lbl
  end.

Definition label_box : option (string * string) := Some ("white", "none").

(* ------------------------------------------------------------------ *)
(** ** Level 2: [C4ContainerDiagram] (C2.py) *)

Module Container.

Record container := mk_container {
  name : string; technology : string; description : option string;
  type : string; db_schema : option string }.

Record relationship := mk_relationship {
  source : string; target : string; label : string;
  protocol : option string; bidirectional : bool }.

Record diagram := mk_diagram {
  system_name : string;
  output_filename : string;
  containers : list container;
  relationships : list relationship }.

Definition init (sys fn : string) : diagram := mk_diagram sys fn [] [].

Definition set_system_name (s : string) (d : diagram) : diagram :=
  mk_diagram s (output_filename d) (containers d) (relationships d).
Definition push_container (c : container) (d : diagram) : diagram :=
  mk_diagram (system_name d) (output_filename d) (containers d ++ [c]) (relationships d).
Definition push_relationship (r : relationship) (d : diagram) : diagram :=
  mk_diagram (system_name d) (output_filename d) (containers d) (relationships d ++ [r]).

Definition add_container (name technology description : option string)
  (container_type : string) (db_schema : option string) : PyM diagram unit :=
  match name, technology with
  | Some n, Some t =>
      if truthy name && truthy technology
      then modify (push_container (mk_container n t description container_type db_schema))
      else raise (ValueError "Container name and technology cannot be empty")
  | _, _ => raise (ValueError "Container name and technology cannot be empty")
  end.

Definition add_relationship (source target label protocol : option string)
  (bidirectional : bool) : PyM diagram unit :=
  match source, target, label with
  | Some s, Some t, Some l =>
      if truthy source && truthy target && truthy label
      then modify (push_relationship (mk_relationship s t l protocol bidirectional))
      else raise (ValueError "Source, target and label cannot be empty")
  | _, _, _ => raise (ValueError "Source, target and label cannot be empty")
  end.

Definition load_container (v : json) : PyM diagram unit :=
  match v with
  | JObj o =>
      n ← lift (getitem o "name" ≫= as_opt_str);
      t ← lift (getitem o "technology" ≫= as_opt_str);
      de ← lift (as_opt_str (get o "description" JNull));
      ty ← lift (as_str (get o "type" (JStr "Application")));
      sc ← lift (as_opt_str (get o "db_schema" JNull));
      add_container n t de ty sc
  | _ => raise TypeError
  end.

Definition load_relationship (v : json) : PyM diagram unit :=
  match v with
  | JObj o =>
      s ← lift (getitem o "source" ≫= as_opt_str);
      t ← lift (getitem o "target" ≫= as_opt_str);
      l ← lift (getitem o "label" ≫= as_opt_str);
      p ← lift (as_opt_str (get o "protocol" JNull));
      b ← lift (as_bool (get o "bidirectional" (JBool false)));
      add_relationship s t l p b
  | _ => raise TypeError
  end.

Definition if_key (o : list (string * json)) (k : string)
  (body : json -> PyM diagram unit) : PyM diagram unit :=
  match obj_lookup k o with Some v => body v | None => mret tt end.

Definition from_json (doc : json) : PyM diagram unit :=
  match doc with
  | JObj o =>
      if_key o "system_name" (fun v => s ← lift (as_str v); modify (set_system_name s)) ;;
      if_key o "containers" (for_json load_container) ;;
      if_key o "relationships" (for_json load_relationship)
  | _ => raise TypeError
  end.

Definition container_to_json (c : container) : json :=
  JObj [("name", JStr (name c)); ("technology", JStr (technology c));
        ("description", json_of_opt (description c)); ("type", JStr (type c));
        ("db_schema", json_of_opt (db_schema c))].
Definition relationship_to_json (r : relationship) : json :=
  JObj [("source", JStr (source r)); ("target", JStr (target r));
        ("label", JStr (label r)); ("protocol", json_of_opt (protocol r));
        ("bidirectional", JBool (bidirectional r))].

(** The public add-operations, as calls a client can make. *)
Inductive op : Type :=
| AddContainer (name technology description : option string) (container_type : string)
    (db_schema : option string)
| AddRelationship (source target label protocol : option string) (bidirectional : bool).

Definition run_op (o : op) : PyM diagram unit :=
  match o with
  | AddContainer n t de ty sc => add_container n t de ty sc
  | AddRelationship s t l p b => add_relationship s t l p b
  end.

Definition run_ops (os : list op) : PyM diagram unit := for_ run_op os.

Definition to_json (d : diagram) : json :=
  JObj [("system_name", JStr (system_name d));
        ("containers", JArr (map container_to_json (containers d)));
        ("relationships", JArr (map relationship_to_json (relationships d)))].

Definition get_container_color (container_type : string) : string * string :=
  if String.eqb container_type "Application" then ("#e3f2fd", "#1565c0")
  else if String.eqb container_type "Database" then ("#e8f5e9", "#2e7d32")
  else if String.eqb container_type "Queue" then ("#fff3e0", "#ef6c00")
  else if String.eqb container_type "Browser" then ("#f3e5f5", "#7b1fa2")
  else if String.eqb container_type "Mobile" then ("#e0f7fa", "#00838f")
  else if String.eqb container_type "API" then ("#ffebee", "#c62828")
  else ("#f5f5f5", "#424242").

Definition container_label (c : container) : string :=
  let l := name c +:+ nl +:+ "[" +:+ technology c +:+ "]" in
  let l := match description c with
           | Some s => if truthy (Some s) then l +:+ nl +:+ s else l
           | None => l end in
  match db_schema c with
  | Some s => if truthy (Some s) then l +:+ nl +:+ "Schema: " +:+ s else l
  | None => l
  end.

Definition radius : Q := 6.

Section Generate.
(** [np.cos(np.radians(a))] and [np.sin(np.radians(a))] *)
Variables cosd sind : Q -> Q.

Definition draw_container (angle_step : Q) (pos : positions) (ic : nat * container)
  : Gen positions :=
  let '(idx, c) := ic in
  let angle := (Qnat idx * angle_step)%Q in
  let x := (cosd angle * radius)%Q in
  let y := (sind angle * radius)%Q in
  let pos' := <[name c := (x, y)]> pos in
  draw (Text x y (container_label c) (Some (get_container_color (type c)))) ;;
  mret pos'.

Definition draw_relationship (d : diagram) (pos : positions) (r : relationship)
  : Gen unit :=
  match pos !! source r, pos !! target r with
  | Some src_pos, Some tgt_pos =>
      let curvature := if (3 <? length (containers d))%nat then 0.2%Q else 0%Q in
      let arrowstyle := if bidirectional r then "<->" else "->" in
      draw (Arrow tgt_pos src_pos arrowstyle "-" "#555555" curvature) ;;
      let mid := midpoint src_pos tgt_pos in
      draw (Text mid.1 mid.2 (with_protocol (label r) (protocol r)) label_box)
  | _, _ => mret tt
  end.

Definition generate (d : diagram) (output_format : string) : Gen string :=
  check_format output_format ;;
  (if bool_decide (containers d = []) then
     throw (ValueError "No containers added to diagram") else mret tt) ;;
  emit (Mkdir output_dir) ;;
  draw (Title ("C4 Level 2: Container Diagram - " +:+ system_name d)) ;;
  draw (Text 0 0 (system_name d) (Some ("#bbdefb", "black"))) ;;
  angle_step ← lift_res (py_div 360 (Qnat (length (containers d))));
  pos ← fold_gen (draw_container angle_step) ∅ (enumerate (containers d));
  for_ (draw_relationship d pos) (relationships d) ;;
  save (output_filename d) output_format.

End Generate.

End Container.

(* ------------------------------------------------------------------ *)
(** ** Level 3: [C4ComponentDiagram] (C3.py) *)

Module Component.

Record component := mk_component {
  name : string; technology : string; description : option string;
  type : string; interface : option string }.

Record relationship := mk_relationship {
  source : string; target : string; label : string;
  protocol : option string; bidirectional : bool; async : bool }.

Record diagram := mk_diagram {
  container_name : string;
  output_filename : string;
  components : list component;
  relationships : list relationship }.

Definition init (cn fn : string) : diagram := mk_diagram cn fn [] [].

Definition set_container_name (s : string) (d : diagram) : diagram :=
  mk_diagram s (output_filename d) (components d) (relationships d).
Definition push_component (c : component) (d : diagram) : diagram :=
  mk_diagram (container_name d) (output_filename d) (components d ++ [c]) (relationships d).
Definition push_relationship (r : relationship) (d : diagram) : diagram :=
  mk_diagram (container_name d) (output_filename d) (components d) (relationships d ++ [r]).

Definition add_component (name technology description : option string)
  (component_type : string) (interface : option string) : PyM diagram unit :=
  match name, technology with
  | Some n, Some t =>
      if truthy name && truthy technology
      then modify (push_component (mk_component n t description component_type interface))
      else raise (ValueError "Component name and technology cannot be empty")
  | _, _ => raise (ValueError "Component name and technology cannot be empty")
  end.

Definition add_relationship (source target label protocol : option string)
  (bidirectional async_comm : bool) : PyM diagram unit :=
  match source, target, label with
  | Some s, Some t, Some l =>
      if truthy source && truthy target && truthy label
      then modify (push_relationship (mk_relationship s t l protocol bidirectional async_comm))
      else raise (ValueError "Source, target and label cannot be empty")
  | _, _, _ => raise (ValueError "Source, target and label cannot be empty")
  end.

Definition load_component (v : json) : PyM diagram unit :=
  match v with
  | JObj o =>
      n ← lift (getitem o "name" ≫= as_opt_str);
      t ← lift (getitem o "technology" ≫= as_opt_str);
      de ← lift (as_opt_str (get o "description" JNull));
      ty ← lift (as_str (get o "type" (JStr "Service")));
      i ← lift (as_opt_str (get o "interface" JNull));
      add_component n t de ty i
  | _ => raise TypeError
  end.

Definition load_relationship (v : json) : PyM diagram unit :=
  match v with
  | JObj o =>
      s ← lift (getitem o "source" ≫= as_opt_str);
      t ← lift (getitem o "target" ≫= as_opt_str);
      l ← lift (getitem o "label" ≫= as_opt_str);
      p ← lift (as_opt_str (get o "protocol" JNull));
      b ← lift (as_bool (get o "bidirectional" (JBool false)));
      a ← lift (as_bool (get o "async" (JBool false)));
      add_relationship s t l p b a
  | _ => raise TypeError
  end.

Definition if_key (o : list (string * json)) (k : string)
  (body : json -> PyM diagram unit) : PyM diagram unit :=
  match obj_lookup k o with Some v => body v | None => mret tt end.

Definition from_json (doc : json) : PyM diagram unit :=
  match doc with
  | JObj o =>
      if_key o "container_name" (fun v => s ← lift (as_str v); modify (set_container_name s)) ;;
      if_key o "components" (for_json load_component) ;;
      if_key o "relationships" (for_json load_relationship)
  | _ => raise TypeError
  end.

Definition component_to_json (c : component) : json :=
  JObj [("name", JStr (name c)); ("technology", JStr (technology c));
        ("description", json_of_opt (description c)); ("type", JStr (type c));
        ("interface", json_of_opt (interface c))].
Definition relationship_to_json (r : relationship) : json :=
  JObj [("source", JStr (source r)); ("target", JStr (target r));
        ("label", JStr (label r)); ("protocol", json_of_opt (protocol r));
        ("bidirectional", JBool (bidirectional r)); ("async", JBool (async r))].

(** The public add-operations, as calls a client can make. *)
Inductive op : Type :=
| AddComponent (name technology description : option string) (component_type : string)
    (interface : option string)
| AddRelationship (source target label protocol : option string)
    (bidirectional async_comm : bool).

Definition run_op (o : op) : PyM diagram unit :=
  match o with
  | AddComponent n t de ty i => add_component n t de ty i
  | AddRelationship s t l p b a => add_relationship s t l p b a
  end.

Definition run_ops (os : list op) : PyM diagram unit := for_ run_op os.

Definition to_json (d : diagram) : json :=
  JObj [("container_name", JStr (container_name d));
        ("components", JArr (map component_to_json (components d)));
        ("relationships", JArr (map relationship_to_json (relationships d)))].

Definition get_component_color (component_type : string) : string * string :=
  if String.eqb component_type "Service" then ("#e3f2fd", "#1565c0")
  else if String.eqb component_type "Controller" then ("#e8f5e9", "#2e7d32")
  else if String.eqb component_type "Repository" then ("#fff3e0", "#ef6c00")
  else if String.eqb component_type "Client" then ("#f3e5f5", "#7b1fa2")
  else if String.eqb component_type "Utility" then ("#e0f7fa", "#00838f")
  else if String.eqb component_type "Gateway" then ("#ffebee", "#c62828")
  else ("#f5f5f5", "#424242").

Definition component_label (c : component) : string :=
  let l := name c +:+ nl +:+ "[" +:+ technology c +:+ "]" in
  let l := match description c with
           | Some s => if truthy (Some s) then l +:+ nl +:+ s else l
           | None => l end in
  match interface c with
  | Some s => if truthy (Some s) then l +:+ nl +:+ "Interface: " +:+ s else l
  | None => l
  end.

Definition radius : Q := 5.

Section Generate.
(** [np.cos(np.radians(a))] and [np.sin(np.radians(a))] *)
Variables cosd sind : Q -> Q.

Definition place (angle_step : Q) (pos : positions) (ic : nat * component) : positions :=
  let '(idx, c) := ic in
  let angle := (Qnat idx * angle_step)%Q in
  <[name c := ((cosd angle * radius)%Q, (sind angle * radius)%Q)]> pos.

(** [_calculate_positions] *)
Definition calculate_positions (d : diagram) : res positions :=
  angle_step ← py_div 360 (Qnat (length (components d)));
  mret (fold_left (place angle_step) (enumerate (components d)) ∅).

Definition draw_component (pos : positions) (c : component) : Gen unit :=
  match pos !! name c with
  | Some (x, y) =>
      draw (Text x y (component_label c) (Some (get_component_color (type c))))
  | None => throw (KeyError (name c))
  end.

Definition draw_relationship (d : diagram) (pos : positions) (r : relationship)
  : Gen unit :=
  match pos !! source r, pos !! target r with
  | Some src_pos, Some tgt_pos =>
      let arrowstyle := if bidirectional r then "<->" else "->" in
      let arrowstyle := if async r then "-|>" else arrowstyle in
      let linestyle := if async r then "--" else "-" in
      let curvature := if (3 <? length (components d))%nat then 0.2%Q else 0%Q in
      draw (Arrow tgt_pos src_pos arrowstyle linestyle "#555555" curvature) ;;
      let mid := midpoint src_pos tgt_pos in
      draw (Text mid.1 mid.2 (with_protocol (label r) (protocol r)) label_box)
  | _, _ => mret tt
  end.

Definition generate (d : diagram) (output_format : string) : Gen string :=
  check_format output_format ;;
  (if bool_decide (components d = []) then
     throw (ValueError "No components added to diagram") else mret tt) ;;
  emit (Mkdir output_dir) ;;
  draw (Title ("C4 Level 3: Component Diagram - " +:+ container_name d)) ;;
  draw (Rect (-8) (-6) 16 12 "#f5f5f5" "#333333") ;;
  draw (Text 0 (-6.5) (container_name d) (Some ("white", "#333333"))) ;;
  pos ← lift_res (calculate_positions d);
  for_ (draw_component pos) (components d) ;;
  for_ (draw_relationship d pos) (relationships d) ;;
  save (output_filename d) output_format.

End Generate.

End Component.

(* ------------------------------------------------------------------ *)
(** ** Level 4: importing [C4CodeDiagram] (C4.py)

    [app.py], [api_server.py] and any client of the code level start with
    [from C4 import C4CodeDiagram]. Python compiles C4.py before running any
    of it, and compilation starts with the tokenizer, which matches quotes and
    brackets over the whole file. C4.py does not get through it: the
    parenthesis opened on line 240, in [_draw_class], after [2.5 +] in

      [height = 2.5 + (len(cls[`methods`]) * 0.2 + (len(cls[`attributes`]) * 0.2)]

    (double quotes written as backticks) is never closed, and the import raises
    [SyntaxError: '(' was never closed] with [lineno] 240. No method of
    [C4CodeDiagram] can run, so the code level is modelled as its source text
    and the tokenizer's checks on it. *)

Definition char_newline : ascii := ascii_of_nat 10.
Definition char_dquote : ascii := ascii_of_nat 34.
Definition char_squote : ascii := ascii_of_nat 39.
Definition char_hash : ascii := ascii_of_nat 35.
Definition char_backslash : ascii := ascii_of_nat 92.
Definition char_backtick : ascii := ascii_of_nat 96.

(** [C4_py_lines] below are the lines of C4.py, line [n] at index [n - 1],
    with each double quote written as a backtick (C4.py itself has no
    backtick); [unquote] puts the double quotes back. *)
Definition unquote (s : string) : list ascii :=
  map (fun c => if Ascii.eqb c char_backtick then char_dquote else c)
    (list_ascii_of_string s).

Definition C4_py_lines : list string := [
"import matplotlib";
"matplotlib.use('Agg')  # Force non-GUI backend";
"import matplotlib.pyplot as plt";
"import matplotlib.patches as patches";
"import numpy as np";
"import os";
"import json";
"from pathlib import Path as FilePath";
"from typing import List, Dict, Optional, Union, Tuple";
"";
"class C4CodeDiagram:";
"    def __init__(self, component_name: str, output_filename: str = `c4_level4_code`):";
"        ```";
"        Initialize a C4 Level 4 Code Diagram generator.";
"        ";
"        Args:";
"            component_name: Name of the component being modeled";
"            output_filename: Base name for output files (without extension)";
"        ```";
"        self.component_name = component_name";
"        self.output_filename = output_filename";
"        self.classes: List[Dict] = []";
"        self.associations: List[Dict] = []";
"        self.inheritances: List[Dict] = []";
"        self.interfaces: List[Dict] = []";
"        self._validate_filename(output_filename)";
"";
"    def _validate_filename(self, filename: str) -> None:";
"        ```Validate the output filename to prevent path traversal.```";
"        if not filename.isidentifier():";
"            raise ValueError(`Output filename must be a valid identifier`)";
"";
"    def add_class(self, name: str, ";
"                 description: Optional[str] = None,";
"                 attributes: Optional[List[str]] = None,";
"                 methods: Optional[List[str]] = None,";
"                 class_type: str = `Class`,";
"                 is_abstract: bool = False,";
"                 is_interface: bool = False) -> 'C4CodeDiagram':";
"        ```";
"        Add a class to the diagram.";
"        ";
"        Args:";
"            name: Name of the class";
"            description: Optional description";
"            attributes: List of attributes";
"            methods: List of methods";
"            class_type: Type of class (Class, Abstract, Interface, etc.)";
"            is_abstract: Whether the class is abstract";
"            is_interface: Whether the class is an interface";
"            ";
"        Returns:";
"            self for method chaining";
"        ```";
"        if not name:";
"            raise ValueError(`Class name cannot be empty`)";
"            ";
"        self.classes.append({";
"            `name`: name,";
"            `description`: description,";
"            `attributes`: attributes or [],";
"            `methods`: methods or [],";
"            `type`: class_type,";
"            `is_abstract`: is_abstract,";
"            `is_interface`: is_interface";
"        })";
"        return self";
"";
"    def add_association(self, class1: str, class2: str, ";
"                       label: Optional[str] = None,";
"                       multiplicity: Optional[str] = None,";
"                       aggregation: bool = False,";
"                       composition: bool = False) -> 'C4CodeDiagram':";
"        ```";
"        Add an association between classes.";
"        ";
"        Args:";
"            class1: First class in association";
"            class2: Second class in association";
"            label: Optional label for the association";
"            multiplicity: Optional multiplicity (e.g., `1..*`)";
"            aggregation: Whether this is an aggregation relationship";
"            composition: Whether this is a composition relationship";
"            ";
"        Returns:";
"            self for method chaining";
"        ```";
"        if not class1 or not class2:";
"            raise ValueError(`Class names cannot be empty`)";
"            ";
"        self.associations.append({";
"            `class1`: class1,";
"            `class2`: class2,";
"            `label`: label,";
"            `multiplicity`: multiplicity,";
"            `aggregation`: aggregation,";
"            `composition`: composition";
"        })";
"        return self";
"";
"    def add_inheritance(self, subclass: str, superclass: str) -> 'C4CodeDiagram':";
"        ```";
"        Add an inheritance relationship.";
"        ";
"        Args:";
"            subclass: The subclass";
"            superclass: The superclass";
"            ";
"        Returns:";
"            self for method chaining";
"        ```";
"        if not subclass or not superclass:";
"            raise ValueError(`Class names cannot be empty`)";
"            ";
"        self.inheritances.append({";
"            `subclass`: subclass,";
"            `superclass`: superclass";
"        })";
"        return self";
"";
"    def add_interface_implementation(self, implementor: str, interface: str) -> 'C4CodeDiagram':";
"        ```";
"        Add an interface implementation relationship.";
"        ";
"        Args:";
"            implementor: The implementing class";
"            interface: The interface being implemented";
"            ";
"        Returns:";
"            self for method chaining";
"        ```";
"        if not implementor or not interface:";
"            raise ValueError(`Class names cannot be empty`)";
"            ";
"        self.interfaces.append({";
"            `implementor`: implementor,";
"            `interface`: interface";
"        })";
"        return self";
"";
"    def from_json(self, json_data: Union[str, Dict]) -> 'C4CodeDiagram':";
"        ```";
"        Load diagram configuration from JSON.";
"        ";
"        Args:";
"            json_data: Either a JSON string or a dictionary";
"            ";
"        Returns:";
"            self for method chaining";
"        ```";
"        if isinstance(json_data, str):";
"            json_data = json.loads(json_data)";
"            ";
"        if `component_name` in json_data:";
"            self.component_name = json_data[`component_name`]";
"            ";
"        if `classes` in json_data:";
"            for cls in json_data[`classes`]:";
"                self.add_class(";
"                    name=cls[`name`],";
"                    description=cls.get(`description`),";
"                    attributes=cls.get(`attributes`),";
"                    methods=cls.get(`methods`),";
"                    class_type=cls.get(`type`, `Class`),";
"                    is_abstract=cls.get(`is_abstract`, False),";
"                    is_interface=cls.get(`is_interface`, False)";
"                )";
"                ";
"        if `associations` in json_data:";
"            for assoc in json_data[`associations`]:";
"                self.add_association(";
"                    class1=assoc[`class1`],";
"                    class2=assoc[`class2`],";
"                    label=assoc.get(`label`),";
"                    multiplicity=assoc.get(`multiplicity`),";
"                    aggregation=assoc.get(`aggregation`, False),";
"                    composition=assoc.get(`composition`, False)";
"                )";
"                ";
"        if `inheritances` in json_data:";
"            for inh in json_data[`inheritances`]:";
"                self.add_inheritance(";
"                    subclass=inh[`subclass`],";
"                    superclass=inh[`superclass`]";
"                )";
"                ";
"        if `interfaces` in json_data:";
"            for interface in json_data[`interfaces`]:";
"                self.add_interface_implementation(";
"                    implementor=interface[`implementor`],";
"                    interface=interface[`interface`]";
"                )";
"        return self";
"";
"    def to_json(self, indent: Optional[int] = None) -> str:";
"        ```";
"        Export diagram configuration to JSON.";
"        ";
"        Args:";
"            indent: JSON indentation level (None for compact)";
"            ";
"        Returns:";
"            JSON string representation";
"        ```";
"        data = {";
"            `component_name`: self.component_name,";
"            `classes`: self.classes,";
"            `associations`: self.associations,";
"            `inheritances`: self.inheritances,";
"            `interfaces`: self.interfaces";
"        }";
"        return json.dumps(data, indent=indent)";
"";
"    def _get_class_color(self, class_type: str, is_abstract: bool, is_interface: bool) -> Tuple[str, str]:";
"        ```Get color scheme based on class type.```";
"        if is_interface:";
"            return ('#f5f5f5', '#7b1fa2')  # Light gray / Purple";
"        if is_abstract:";
"            return ('#e3f2fd', '#0d47a1')  # Light blue / Dark blue";
"        if class_type == `Entity`:";
"            return ('#e8f5e9', '#2e7d32')  # Light green / Dark green";
"        if class_type == `Service`:";
"            return ('#fff3e0', '#ef6c00')  # Light orange / Dark orange";
"        if class_type == `Repository`:";
"            return ('#fce4ec', '#c2185b')  # Light pink / Dark pink";
"        return ('#ffffff', '#424242')      # White / Dark gray";
"";
"    def _get_class_font_style(self, is_abstract: bool, is_interface: bool) -> Dict:";
"        ```Get font style based on class properties.```";
"        style = {`fontsize`: 10}";
"        if is_abstract:";
"            style[`fontstyle`] = `italic`";
"        if is_interface:";
"            style[`fontstyle`] = `italic`";
"        return style";
"";
"    def _draw_class(self, ax, x: float, y: float, cls: Dict) -> None:";
"        ```Draw a class box with all its contents.```";
"        width = 3.5";
"        height = 2.5 + (len(cls[`methods`]) * 0.2 + (len(cls[`attributes`]) * 0.2)";
"        ";
"        # Adjust height based on content";
"        if cls[`description`]:";
"            height += 0.4";
"        if len(cls[`methods`]) > 3 or len(cls[`attributes`]) > 3:";
"            height += 0.5";
"            ";
"        bg_color, border_color = self._get_class_color(";
"            cls[`type`], cls[`is_abstract`], cls[`is_interface`])";
"        ";
"        # Draw class box";
"        rect = patches.Rectangle(";
"            (x - width/2, y - height/2), width, height,";
"            linewidth=1.5, edgecolor=border_color, ";
"            facecolor=bg_color, alpha=0.9)";
"        ax.add_patch(rect)";
"        ";
"        # Draw class name compartment";
"        name_comp_height = 0.6";
"        name_rect = patches.Rectangle(";
"            (x - width/2, y - height/2 + height - name_comp_height), ";
"            width, name_comp_height,";
"            linewidth=1.5, edgecolor=border_color, ";
"            facecolor=border_color, alpha=0.2)";
"        ax.add_patch(name_rect)";
"        ";
"        # Add class name";
"        class_name = f`<<interface>>\n{cls['name']}` if cls[`is_interface`] else cls[`name`]";
"        ax.text(x, y + height/2 - name_comp_height/2, class_name, ";
"                ha='center', va='center', fontsize=11, ";
"                fontweight='bold', color='black')";
"        ";
"        # Add description if present";
"        current_y = y + height/2 - name_comp_height - 0.3";
"        if cls[`description`]:";
"            ax.text(x, current_y, cls[`description`], ";
"                    ha='center', va='top', fontsize=8, wrap=True)";
"            current_y -= 0.4";
"            ";
"        # Add attributes";
"        if cls[`attributes`]:";
"            attributes_text = `\n`.join(cls[`attributes`])";
"            ax.text(x - width/2 + 0.1, current_y - 0.1, attributes_text,";
"                    ha='left', va='top', fontsize=9, family='monospace')";
"            current_y -= len(cls[`attributes`]) * 0.2";
"            ";
"        # Add methods";
"        if cls[`methods`]:";
"            methods_text = `\n`.join(cls[`methods`])";
"            ax.text(x - width/2 + 0.1, current_y - 0.1, methods_text,";
"                    ha='left', va='top', fontsize=9, family='monospace')";
"";
"    def _draw_relationship(self, ax, start: Tuple[float, float], end: Tuple[float, float], ";
"                          rel_type: str, label: Optional[str] = None,";
"                          multiplicity: Optional[str] = None) -> None:";
"        ```Draw a relationship between classes.```";
"        arrow_style = {";
"            `arrowstyle`: `->`,";
"            `color`: `#333333`,";
"            `linewidth`: 1.5,";
"            `shrinkA`: 15,";
"            `shrinkB`: 15";
"        }";
"        ";
"        # Customize arrow based on relationship type";
"        if rel_type == `inheritance`:";
"            arrow_style[`arrowstyle`] = `-|>`";
"            arrow_style[`color`] = `#0d47a1`";
"        elif rel_type == `interface`:";
"            arrow_style[`arrowstyle`] = `-|>`";
"            arrow_style[`linestyle`] = `--`";
"            arrow_style[`color`] = `#7b1fa2`";
"        elif rel_type == `aggregation`:";
"            arrow_style[`arrowstyle`] = `]-`";
"            arrow_style[`color`] = `#ef6c00`";
"        elif rel_type == `composition`:";
"            arrow_style[`arrowstyle`] = `]-`";
"            arrow_style[`color`] = `#c62828`";
"            ";
"        ax.annotate(``, xy=end, xytext=start, arrowprops=arrow_style)";
"        ";
"        # Add label if provided";
"        if label or multiplicity:";
"            mid_x = (start[0] + end[0]) / 2";
"            mid_y = (start[1] + end[1]) / 2";
"            ";
"            label_text = ``";
"            if label:";
"                label_text += label";
"            if multiplicity:";
"                if label_text:";
"                    label_text += `\n`";
"                label_text += multiplicity";
"                ";
"            ax.text(mid_x, mid_y, label_text, fontsize=8, ";
"                   ha='center', va='center', ";
"                   bbox=dict(boxstyle=`round,pad=0.2`, ";
"                           facecolor='white', alpha=0.8))";
"";
"    def generate(self, output_format: str = `png`, dpi: int = 300) -> str:";
"        ```";
"        Generate the C4 Level 4 Code Diagram.";
"        ";
"        Args:";
"            output_format: Image format ('png', 'jpg', 'svg', 'pdf')";
"            dpi: Image resolution in dots per inch";
"            ";
"        Returns:";
"            Path to the generated diagram file";
"        ```";
"        if output_format not in [`png`, `jpg`, `svg`, `pdf`]:";
"            raise ValueError(f`Unsupported output format: {output_format}`)";
"            ";
"        if not self.classes:";
"            raise ValueError(`No classes added to diagram`)";
"";
"        output_dir = `diagrams_output`";
"        FilePath(output_dir).mkdir(exist_ok=True)";
"";
"        fig, ax = plt.subplots(figsize=(16, 12))";
"        ax.set_facecolor('white')";
"        ax.axis('off')";
"        ax.set_title(f`C4 Level 4: Code Diagram - {self.component_name}`, ";
"                    fontsize=18, pad=20, fontweight='bold')";
"";
"        # Calculate positions using a force-directed layout";
"        positions = self._calculate_positions()";
"";
"        # Draw all classes";
"        for cls in self.classes:";
"            if cls[`name`] in positions:";
"                x, y = positions[cls[`name`]]";
"                self._draw_class(ax, x, y, cls)";
"";
"        # Draw all relationships";
"        for assoc in self.associations:";
"            if assoc[`class1`] in positions and assoc[`class2`] in positions:";
"                rel_type = `aggregation` if assoc[`aggregation`] else (";
"                          `composition` if assoc[`composition`] else `association`)";
"                self._draw_relationship(";
"                    ax, positions[assoc[`class1`]], positions[assoc[`class2`]],";
"                    rel_type, assoc.get(`label`), assoc.get(`multiplicity`))";
"";
"        # Draw inheritances";
"        for inh in self.inheritances:";
"            if inh[`subclass`] in positions and inh[`superclass`] in positions:";
"                self._draw_relationship(";
"                    ax, positions[inh[`subclass`]], positions[inh[`superclass`]],";
"                    `inheritance`)";
"";
"        # Draw interface implementations";
"        for interface in self.interfaces:";
"            if interface[`implementor`] in positions and interface[`interface`] in positions:";
"                self._draw_relationship(";
"                    ax, positions[interface[`implementor`]], positions[interface[`interface`]],";
"                    `interface`)";
"";
"        # Save diagram";
"        output_path = os.path.join(output_dir, f`{self.output_filename}.{output_format}`)";
"        plt.savefig(output_path, dpi=dpi, bbox_inches='tight', format=output_format)";
"        plt.close()";
"";
"        print(f`Diagram generated at {output_path}`)";
"        return output_path";
"";
"    def _calculate_positions(self) -> Dict[str, Tuple[float, float]]:";
"        ```Calculate class positions using a simple force-directed layout.```";
"        # Simple grid layout for demonstration";
"        # In a real implementation, consider using a proper graph layout algorithm";
"        positions = {}";
"        num_classes = len(self.classes)";
"        cols = int(np.ceil(np.sqrt(num_classes)))";
"        rows = int(np.ceil(num_classes / cols))";
"        ";
"        x_spacing = 6";
"        y_spacing = 5";
"        start_x = - (cols - 1) * x_spacing / 2";
"        start_y = (rows - 1) * y_spacing / 2";
"        ";
"        for idx, cls in enumerate(self.classes):";
"            col = idx % cols";
"            row = idx // cols";
"            x = start_x + col * x_spacing";
"            y = start_y - row * y_spacing";
"            positions[cls[`name`]] = (x, y)";
"            ";
"        return positions";
"";
"";
"if __name__ == `__main__`:";
"    # Example usage";
"    diagram = C4CodeDiagram(`Order Processing Component`)";
"    ";
"    # Add classes with different types";
"    diagram.add_class(";
"        `OrderController`,";
"        `Handles HTTP requests for orders`,";
"        attributes=[`orderService: OrderService`, `paymentService: PaymentService`],";
"        methods=[`createOrder(): Order`, `cancelOrder(orderId: String): Boolean`],";
"        class_type=`Controller`";
"    )";
"    ";
"    diagram.add_class(";
"        `OrderService`,";
"        `Core order processing logic`,";
"        attributes=[`orderRepository: OrderRepository`],";
"        methods=[`createOrder(order: Order): Order`, `findOrderById(id: String): Order`],";
"        class_type=`Service`";
"    )";
"    ";
"    diagram.add_class(";
"        `OrderRepository`,";
"        `Database access for orders`,";
"        attributes=[`dataSource: DataSource`],";
"        methods=[`save(order: Order): void`, `findById(id: String): Order`],";
"        class_type=`Repository`";
"    )";
"    ";
"    diagram.add_class(";
"        `PaymentService`,";
"        `Handles payment processing`,";
"        methods=[`processPayment(order: Order): PaymentResult`, `refundPayment(orderId: String): Boolean`],";
"        class_type=`Service`";
"    )";
"    ";
"    diagram.add_class(";
"        `AbstractService`,";
"        `Base service functionality`,";
"        methods=[`logEvent(event: String): void`],";
"        class_type=`Service`,";
"        is_abstract=True";
"    )";
"    ";
"    diagram.add_class(";
"        `OrderValidator`,";
"        `Validates order data`,";
"        methods=[`validate(order: Order): ValidationResult`],";
"        class_type=`Utility`";
"    )";
"    ";
"    diagram.add_class(";
"        `IEmailService`,";
"        `Interface for email notifications`,";
"        methods=[`sendConfirmation(order: Order): void`],";
"        class_type=`Interface`,";
"        is_interface=True";
"    )";
"    ";
"    # Add relationships";
"    diagram.add_association(`OrderController`, `OrderService`, `uses`)";
"    diagram.add_association(`OrderController`, `PaymentService`, `uses`)";
"    diagram.add_association(`OrderService`, `OrderRepository`, `uses`, multiplicity=`1..*`)";
"    diagram.add_association(`OrderService`, `OrderValidator`, `validates with`)";
"    diagram.add_association(`OrderService`, `IEmailService`, `notifies via`)";
"    diagram.add_association(`OrderRepository`, `DataSource`, `uses`, composition=True)";
"    ";
"    # Add inheritance";
"    diagram.add_inheritance(`OrderService`, `AbstractService`)";
"    diagram.add_inheritance(`PaymentService`, `AbstractService`)";
"    ";
"    # Add interface implementation";
"    diagram.add_interface_implementation(`EmailServiceImpl`, `IEmailService`)";
"    ";
"    # Generate diagram in multiple formats";
"    diagram.generate(output_format=`png`)";
"    diagram.generate(output_format=`svg`)";
"    ";
"    # Export/import JSON";
"    json_data = diagram.to_json(indent=2)";
"    print(`\nDiagram JSON representation:`)";
"    print(json_data)";
"    ";
"    # Create new diagram from JSON";
"    new_diagram = C4CodeDiagram(`Temp Component`).from_json(json_data)";
"    new_diagram.generate(output_format=`pdf`)"].

(** The file: its lines, each ended by a newline. *)
Definition C4_py : list ascii :=
  concat (map (fun l => (unquote l ++ [char_newline])%list) C4_py_lines).

Definition is_opener (c : ascii) : bool :=
  Ascii.eqb c "(" || Ascii.eqb c "[" || Ascii.eqb c "{".

(** The opening bracket a closing one must match. *)
Definition opener_of (c : ascii) : option ascii :=
  if Ascii.eqb c ")" then Some "("%char
  else if Ascii.eqb c "]" then Some "["%char
  else if Ascii.eqb c "}" then Some "{"%char
  else None.

Definition quoted (c : ascii) : string := String char_squote (String c (String char_squote "")).

(** Where the tokenizer is: in code, in a [#] comment, or in a string opened
    by the quote [q] on line [start]; [triple] when three quotes opened it. *)
Inductive tok_mode : Type :=
| InCode
| InComment
| InString (q : ascii) (triple : bool) (start : nat).

(** The tokenizer's scan of a source text: [stack] holds the open brackets
    with their lines, innermost first; [line] is the current line. A
    backslash escapes the next character in a string and joins lines in
    code. At the end of the text an unterminated string or an open bracket is
    a [SyntaxError], the innermost bracket being the one reported. *)
Fixpoint tokenize (m : tok_mode) (stack : list (ascii * nat)) (line : nat)
  (s : list ascii) {struct s} : res unit :=
  match s with
  | [] =>
      match m with
      | InString _ true l => Err (SyntaxError "unterminated triple-quoted string literal" l)
      | InString _ false l => Err (SyntaxError "unterminated string literal" l)
      | _ =>
          match stack with
          | [] => Ok tt
          | (b, l) :: _ => Err (SyntaxError (quoted b +:+ " was never closed") l)
          end
      end
  | c :: s' =>
      match m with
      | InComment =>
          if Ascii.eqb c char_newline then tokenize InCode stack (S line) s'
          else tokenize InComment stack line s'
      | InString q triple l =>
          if Ascii.eqb c char_backslash then
            match s' with
            | [] => tokenize m stack line s'
            | c' :: s'' =>
                tokenize m stack (if Ascii.eqb c' char_newline then S line else line) s''
            end
          else if Ascii.eqb c q then
            if triple then
              match s' with
              | c1 :: c2 :: s'' =>
                  if Ascii.eqb c1 q && Ascii.eqb c2 q then tokenize InCode stack line s''
                  else tokenize m stack line s'
              | _ => tokenize m stack line s'
              end
            else tokenize InCode stack line s'
          else if Ascii.eqb c char_newline then
            if triple then tokenize m stack (S line) s'
            else Err (SyntaxError "unterminated string literal" l)
          else tokenize m stack line s'
      | InCode =>
          if Ascii.eqb c char_newline then tokenize InCode stack (S line) s'
          else if Ascii.eqb c char_hash then tokenize InComment stack line s'
          else if Ascii.eqb c char_backslash then
            match s' with
            | [] => tokenize InCode stack line s'
            | c' :: s'' =>
                tokenize InCode stack (if Ascii.eqb c' char_newline then S line else line) s''
            end
          else if Ascii.eqb c char_squote || Ascii.eqb c char_dquote then
            match s' with
            | c1 :: c2 :: s'' =>
                if Ascii.eqb c1 c && Ascii.eqb c2 c
                then tokenize (InString c true line) stack line s''
                else tokenize (InString c false line) stack line s'
            | _ => tokenize (InString c false line) stack line s'
            end
          else if is_opener c then tokenize InCode ((c, line) :: stack) line s'
          else
            match opener_of c with
            | None => tokenize InCode stack line s'
            | Some o =>
                match stack with
                | [] => Err (SyntaxError ("unmatched " +:+ quoted c) line)
                | (b, _) :: stack' =>
                    if Ascii.eqb b o then tokenize InCode stack' line s'
                    else Err (SyntaxError ("closing parenthesis " +:+ quoted c +:+
                                " does not match opening parenthesis " +:+ quoted b) line)
                end
            end
      end
  end.

(** [import C4]. [Ok tt] means only that C4.py passes these checks of the
    tokenizer: the rest of compilation, and running the module body, are not
    modelled. *)
Definition import_C4 : res unit := tokenize InCode [] 1 C4_py.

(** [from C4 import C4CodeDiagram] followed by the statements [rest] that
    use it. *)
Definition from_C4_import {A} (rest : res A) : res A := import_C4 ≫= fun _ => rest.


(* ------------------------------------------------------------------ *)
(** ** [__init__] and [_validate_filename] (levels 1 to 3) *)

(** The characters of a [string] stand for the code points 0 to 255
    (Latin-1); [str.isidentifier] is written out for them. *)

(** [XID_Start] among the code points 0 to 255, with ['_']. *)
Definition is_id_start (c : ascii) : bool :=
  let n := nat_of_ascii c in
  ((65 <=? n) && (n <=? 90)) || ((97 <=? n) && (n <=? 122)) || (n =? 95) ||
  (n =? 170) || (n =? 181) || (n =? 186) ||
  ((192 <=? n) && (n <=? 214)) || ((216 <=? n) && (n <=? 246)) ||
  ((248 <=? n) && (n <=? 255)).

(** [XID_Continue] among the code points 0 to 255. *)
Definition is_id_continue (c : ascii) : bool :=
  let n := nat_of_ascii c in
  is_id_start c || ((48 <=? n) && (n <=? 57)) || (n =? 183).

(** [str.isidentifier()] *)
Definition isidentifier (s : string) : bool :=
  match s with
  | EmptyString => false
  | String c s' => is_id_start c && forallb is_id_continue (list_ascii_of_string s')
  end.

(** [_validate_filename] *)
Definition validate_filename (filename : string) : res unit :=
  if isidentifier filename then Ok tt
  else Err (ValueError "Output filename must be a valid identifier").

(** The constructors: the fields are set, then the file name is validated;
    a raising constructor returns no object. *)
Definition context_new (system_name output_filename : string) : res Context.diagram :=
  _ ← validate_filename output_filename; Ok (Context.init system_name output_filename).
Definition container_new (system_name output_filename : string) : res Container.diagram :=
  _ ← validate_filename output_filename; Ok (Container.init system_name output_filename).
Definition component_new (container_name output_filename : string) : res Component.diagram :=
  _ ← validate_filename output_filename; Ok (Component.init container_name output_filename).

(* ------------------------------------------------------------------ *)
(** ** Vocabulary of the statements *)




(** Records that passed the checks of the add-operations of [C4ContextDiagram]. *)
Module ContextSpec.
Import Context.

Definition valid_user (u : user) : Prop := u_name u ≠ "".
Definition valid_external_system (x : external_system) : Prop := x_name x ≠ "".
Definition valid_relationship (r : relationship) : Prop :=
  source r ≠ "" ∧ target r ≠ "" ∧ label r ≠ "".
Definition valid_diagram (d : diagram) : Prop :=
  Forall valid_user (users d) ∧ Forall valid_external_system (external_systems d) ∧
  Forall valid_relationship (relationships d).

End ContextSpec.

(** The JSON item [v] is one that [load_user] turns into the user [u]:
    run on any diagram, it appends [u] and returns. *)
Definition loads_user (v : json) (u : Context.user) : Prop :=
  ∀ d, Context.load_user v d = (Context.push_user u d, Ok tt).
Definition loads_external_system (v : json) (x : Context.external_system) : Prop :=
  ∀ d, Context.load_external_system v d = (Context.push_external_system x d, Ok tt).
Definition loads_relationship (v : json) (r : Context.relationship) : Prop :=
  ∀ d, Context.load_relationship v d = (Context.push_relationship r d, Ok tt).

(** The key [k] of the JSON object [o] is absent and [ys] is empty, or it
    lists items that load, one after the other, as the records [ys]. *)
Definition loads_key {A} (loads : json → A → Prop) (o : list (string * json)) (k : string)
  (ys : list A) : Prop :=
  (obj_lookup k o = None ∧ ys = []) ∨
  (∃ vs, obj_lookup k o = Some (JArr vs) ∧ Forall2 loads vs ys).

(** [s] is the title [from_json] of the JSON object [o] gives [d]: the
    string under ["system_name"], or [d]'s title when the key is absent. *)
Definition title_from (o : list (string * json)) (d : Context.diagram) (s : string) : Prop :=
  obj_lookup "system_name" o = Some (JStr s) ∨
  (obj_lookup "system_name" o = None ∧ s = Context.system_name d).

(** Records that passed the checks of the add-operations of [C4ContainerDiagram]. *)
Module ContainerSpec.
Import Container.

Definition valid_container (c : container) : Prop := name c ≠ "" ∧ technology c ≠ "".
Definition valid_relationship (r : relationship) : Prop :=
  source r ≠ "" ∧ target r ≠ "" ∧ label r ≠ "".
Definition valid_diagram (d : diagram) : Prop :=
  Forall valid_container (containers d) ∧ Forall valid_relationship (relationships d).

End ContainerSpec.

(** Records that passed the checks of the add-operations of [C4ComponentDiagram]. *)
Module ComponentSpec.
Import Component.

Definition valid_component (c : component) : Prop := name c ≠ "" ∧ technology c ≠ "".
Definition valid_relationship (r : relationship) : Prop :=
  source r ≠ "" ∧ target r ≠ "" ∧ label r ≠ "".
Definition valid_diagram (d : diagram) : Prop :=
  Forall valid_component (components d) ∧ Forall valid_relationship (relationships d).

End ComponentSpec.

(** [generate] creates the output directory, performs only drawing calls,
    then saves the figure to [output_path fn fmt] once, closes it and returns
    that path. *)
Definition draws_then_saves (fn fmt : string) (g : Gen string) : Prop :=
  ∃ ps, g = (Mkdir output_dir :: map Draw ps ++
             [Savefig (output_path fn fmt) fmt; Close], Ok (output_path fn fmt)).

(** A computation that performs only drawing calls and succeeds. *)
Definition draws_only {A} (m : Gen A) : Prop := ∃ ps a, m = (map Draw ps, Ok a).

(** Small diagrams of each level. *)
Definition shop_context : Context.diagram :=
  Context.mk_diagram "Shop" "shop" [Context.mk_user "Admin" None None] [] [].
Definition shop_container : Container.diagram :=
  Container.mk_diagram "Shop" "shop"
    [Container.mk_container "Web" "React" None "Application" None] [].
Definition shop_component : Component.diagram :=
  Component.mk_diagram "API" "api"
    [Component.mk_component "Orders" "Flask" None "Service" None] [].

(** Items of a JSON document: a user with no description or role, and a
    relationship with no [bidirectional] key. *)
Definition user_item (n : string) : json :=
  JObj [("name", JStr n); ("description", JNull); ("role", JNull)].
Definition relationship_item (s t l : string) : json :=
  JObj [("source", JStr s); ("target", JStr t); ("label", JStr l)].

(* ------------------------------------------------------------------ *)
(** * Proofs *)

Ltac crush_ops :=
  repeat (match goal with
          | H : (_, _) = (_, _) |- _ => inversion H; subst; clear H
          | |- context [match ?x with _ => _ end] => destruct x eqn:?
          | H : context [match ?x with _ => _ end] |- _ => destruct x eqn:?
          end; simpl in *; try discriminate).

Ltac unfold_adds :=
  unfold Context.add_user, Context.add_external_system, Context.add_relationship,
    Container.add_container, Container.add_relationship,
    Component.add_component, Component.add_relationship,
    raise, modify in *.

Ltac truthy_facts :=
  repeat match goal with
         | H : _ && _ = true |- _ => apply andb_true_iff in H; destruct H
         | H : negb (_ =? _)%string = true |- _ => apply negb_true_iff, String.eqb_neq in H
         end.

(** Importing C4.py raises, whatever the statements after the import. *)
Lemma import_C4_fails : import_C4 = Err (SyntaxError "'(' was never closed" 240).
Proof. vm_compute. reflexivity. Qed.

Lemma from_C4_import_fails {A} (rest : res A) :
  from_C4_import rest = Err (SyntaxError "'(' was never closed" 240).
Proof. unfold from_C4_import. rewrite import_C4_fails. reflexivity. Qed.




(** ** The monads *)

Ltac pysimpl :=
  unfold mbind, PyM_bind, res_bind, Gen_bind, mret, PyM_ret, res_ret, Gen_ret,
    lift, raise, modify in *; cbn in *.

Lemma for_app {S A} (body : A -> PyM S unit) (l1 l2 : list A) (s : S) :
  for_ body (l1 ++ l2) s =
  match for_ body l1 s with
  | (s', Ok _) => for_ body l2 s'
  | (s', Err e) => (s', Err e)
  end.
Proof.
  revert s; induction l1 as [|x l1 IH]; intros s; simpl; [reflexivity|].
  unfold mbind, PyM_bind. destruct (body x s) as [s1 [[]|e]]; [apply IH|reflexivity].
Qed.

Lemma for_cons_err {S A} (body : A -> PyM S unit) x l s s' e :
  body x s = (s', Err e) → for_ body (x :: l) s = (s', Err e).
Proof. intros H. simpl. unfold mbind, PyM_bind. now rewrite H. Qed.

Lemma for_cons_ok {S A} (body : A -> PyM S unit) x l s s' :
  body x s = (s', Ok tt) → for_ body (x :: l) s = for_ body l s'.
Proof. intros H. simpl. unfold mbind, PyM_bind. now rewrite H. Qed.

Lemma bind_ok {S A B} (m : PyM S A) (f : A -> PyM S B) s s' a :
  m s = (s', Ok a) → (m ≫= f) s = f a s'.
Proof. intros H. unfold mbind, PyM_bind. now rewrite H. Qed.

Lemma bind_err {S A B} (m : PyM S A) (f : A -> PyM S B) s s' e :
  m s = (s', Err e) → (m ≫= f) s = (s', Err e).
Proof. intros H. unfold mbind, PyM_bind. now rewrite H. Qed.

(** A loop whose body appends the record of each item. *)
Lemma for_loads {S A B} (body : A -> PyM S unit) (push : B -> S -> S) vs ys s :
  Forall2 (fun v y => ∀ s, body v s = (push y s, Ok tt)) vs ys →
  for_ body vs s = (fold_left (fun s y => push y s) ys s, Ok tt).
Proof.
  intros H. revert s. induction H as [|v y vs ys Hv _ IH]; intros s; [reflexivity|].
  erewrite for_cons_ok by apply Hv. apply IH.
Qed.

(** A loop stopped by an item that raises, after items that append. *)
Lemma for_loads_then_err {S A B} (body : A -> PyM S unit) (push : B -> S -> S)
      vs1 v vs2 ys s e :
  Forall2 (fun v y => ∀ s, body v s = (push y s, Ok tt)) vs1 ys →
  (∀ s, body v s = (s, Err e)) →
  for_ body (vs1 ++ v :: vs2) s = (fold_left (fun s y => push y s) ys s, Err e).
Proof.
  intros H Hv. rewrite for_app, (for_loads body push vs1 ys s H).
  apply for_cons_err, Hv.
Qed.

Lemma as_opt_str_json_of_opt o : as_opt_str (json_of_opt o) = Ok o.
Proof. now destruct o. Qed.


Lemma truthy_empty : truthy (Some "") = false.
Proof. reflexivity. Qed.

(** ** Level 1 *)

Module ContextFacts.
Import Context ContextSpec.


Lemma load_user_ok u d :
  valid_user u → load_user (user_to_json u) d = (push_user u d, Ok tt).
Proof.
  destruct u as [n de ro]; unfold valid_user; simpl; intros Hn.
  pysimpl. rewrite !as_opt_str_json_of_opt. pysimpl.
  apply String.eqb_neq in Hn. now rewrite Hn.
Qed.

Lemma load_external_system_ok x d :
  valid_external_system x →
  load_external_system (external_system_to_json x) d = (push_external_system x d, Ok tt).
Proof.
  destruct x as [n de p]; unfold valid_external_system; simpl; intros Hn.
  pysimpl. rewrite !as_opt_str_json_of_opt. pysimpl.
  apply String.eqb_neq in Hn. now rewrite Hn.
Qed.

Lemma context_load_relationship_ok r d :
  valid_relationship r →
  load_relationship (relationship_to_json r) d = (push_relationship r d, Ok tt).
Proof.
  destruct r as [s t l b]; unfold valid_relationship; simpl; intros (Hs & Ht & Hl).
  pysimpl. apply String.eqb_neq in Hs, Ht, Hl. now rewrite Hs, Ht, Hl.
Qed.

Lemma load_users_ok us d :
  Forall valid_user us →
  for_ load_user (map user_to_json us) d =
  (mk_diagram (system_name d) (output_filename d) (users d ++ us)
     (external_systems d) (relationships d), Ok tt).
Proof.
  revert d; induction us as [|u us IH]; intros d H.
  - destruct d; simpl; now rewrite app_nil_r.
  - inversion H; subst. cbn [map].
    erewrite for_cons_ok by (apply load_user_ok; assumption).
    rewrite IH by assumption. simpl. now rewrite <- app_assoc.
Qed.

Lemma load_external_systems_ok xs d :
  Forall valid_external_system xs →
  for_ load_external_system (map external_system_to_json xs) d =
  (mk_diagram (system_name d) (output_filename d) (users d)
     (external_systems d ++ xs) (relationships d), Ok tt).
Proof.
  revert d; induction xs as [|x xs IH]; intros d H.
  - destruct d; simpl; now rewrite app_nil_r.
  - inversion H; subst. cbn [map].
    erewrite for_cons_ok by (apply load_external_system_ok; assumption).
    rewrite IH by assumption. simpl. now rewrite <- app_assoc.
Qed.

Lemma context_load_relationships_ok rs d :
  Forall valid_relationship rs →
  for_ load_relationship (map relationship_to_json rs) d =
  (mk_diagram (system_name d) (output_filename d) (users d)
     (external_systems d) (relationships d ++ rs), Ok tt).
Proof.
  revert d; induction rs as [|r rs IH]; intros d H.
  - destruct d; simpl; now rewrite app_nil_r.
  - inversion H; subst. cbn [map].
    erewrite for_cons_ok by (apply context_load_relationship_ok; assumption).
    rewrite IH by assumption. simpl. now rewrite <- app_assoc.
Qed.


Lemma context_run_op_valid o d d' :
  run_op o d = (d', Ok tt) → valid_diagram d → valid_diagram d'.
Proof.
  intros H (Hu & Hx & Hr); destruct o; simpl in H; unfold_adds; crush_ops;
    truthy_facts;
    unfold valid_diagram; simpl; repeat split; try assumption;
    apply Forall_app; split;
    (assumption || (apply Forall_singleton;
      cbv [valid_user valid_external_system valid_relationship]; simpl; tauto)).
Qed.

Lemma context_run_ops_valid os d d' :
  run_ops os d = (d', Ok tt) → valid_diagram d → valid_diagram d'.
Proof.
  unfold run_ops; revert d; induction os as [|o os IH]; intros d H Hv.
  - simpl in H. now inversion H; subst.
  - simpl in H. unfold mbind, PyM_bind in H.
    destruct (run_op o d) as [d1 [[]|e]] eqn:E; [|discriminate].
    eapply IH; [exact H|]. eapply context_run_op_valid; eassumption.
Qed.

Lemma context_init_valid sys fn : valid_diagram (init sys fn).
Proof. repeat split; constructor. Qed.

Lemma load_user_empty u d :
  u_name u = "" →
  load_user (user_to_json u) d = (d, Err (ValueError "User name cannot be empty")).
Proof.
  destruct u as [n de ro]; simpl; intros ->.
  pysimpl. rewrite !as_opt_str_json_of_opt. reflexivity.
Qed.

Lemma load_relationship_empty r d :
  source r = "" ∨ target r = "" ∨ label r = "" →
  load_relationship (relationship_to_json r) d =
  (d, Err (ValueError "Source, target and label cannot be empty")).
Proof.
  destruct r as [s t l b]; simpl; intros H. pysimpl.
  destruct (s =? "")%string eqn:Es, (t =? "")%string eqn:Et, (l =? "")%string eqn:El;
    simpl; try reflexivity;
    apply String.eqb_neq in Es, Et, El; intuition.
Qed.

Lemma context_round_trip d sys fn :
  valid_diagram d →
  from_json (to_json d) (init sys fn) =
  (mk_diagram (system_name d) fn (users d) (external_systems d) (relationships d), Ok tt).
Proof.
  intros (Hu & Hx & Hr). unfold from_json, to_json, if_key. pysimpl.
  rewrite load_users_ok by assumption. simpl.
  rewrite load_external_systems_ok by assumption. simpl.
  rewrite context_load_relationships_ok by assumption. reflexivity.
Qed.

Lemma push_users_fold ys d :
  fold_left (fun d y => push_user y d) ys d =
  mk_diagram (system_name d) (output_filename d) (users d ++ ys)
    (external_systems d) (relationships d).
Proof.
  revert d; induction ys as [|y ys IH]; intros d; simpl.
  - destruct d; simpl; now rewrite app_nil_r.
  - rewrite IH. simpl. now rewrite <- app_assoc.
Qed.

Lemma push_external_systems_fold xs d :
  fold_left (fun d x => push_external_system x d) xs d =
  mk_diagram (system_name d) (output_filename d) (users d)
    (external_systems d ++ xs) (relationships d).
Proof.
  revert d; induction xs as [|x xs IH]; intros d; simpl.
  - destruct d; simpl; now rewrite app_nil_r.
  - rewrite IH. simpl. now rewrite <- app_assoc.
Qed.

Lemma push_relationships_fold rs d :
  fold_left (fun d r => push_relationship r d) rs d =
  mk_diagram (system_name d) (output_filename d) (users d)
    (external_systems d) (relationships d ++ rs).
Proof.
  revert d; induction rs as [|r rs IH]; intros d; simpl.
  - destruct d; simpl; now rewrite app_nil_r.
  - rewrite IH. simpl. now rewrite <- app_assoc.
Qed.

(** The three loop bodies raise before changing the diagram, and whether
    they raise does not depend on the diagram. *)
Ltac load_err_tac :=
  intros H d'; unfold outcome, load_user, load_external_system, load_relationship,
    add_user, add_external_system, add_relationship in *;
  match goal with v : json |- _ => destruct v end; pysimpl; try congruence;
  repeat (case_match; pysimpl; try congruence).

Lemma load_user_err v d e :
  outcome (load_user v) d = Err e → ∀ d', load_user v d' = (d', Err e).
Proof. load_err_tac. Qed.

Lemma load_external_system_err v d e :
  outcome (load_external_system v) d = Err e → ∀ d', load_external_system v d' = (d', Err e).
Proof. load_err_tac. Qed.

Lemma load_relationship_err v d e :
  outcome (load_relationship v) d = Err e → ∀ d', load_relationship v d' = (d', Err e).
Proof. load_err_tac. Qed.

Lemma title_step o d s :
  title_from o d s →
  if_key o "system_name" (fun v => s ← lift (as_str v); modify (set_system_name s)) d =
  (mk_diagram s (output_filename d) (users d) (external_systems d) (relationships d), Ok tt).
Proof.
  unfold if_key. intros [H|[H ->]]; rewrite H; pysimpl; [reflexivity|now destruct d].
Qed.

Lemma users_step o us d :
  loads_key loads_user o "users" us →
  if_key o "users" (for_json load_user) d =
  (mk_diagram (system_name d) (output_filename d) (users d ++ us)
     (external_systems d) (relationships d), Ok tt).
Proof.
  unfold if_key. intros [[H ->]|(vs & H & Hvs)]; rewrite H.
  - pysimpl. destruct d; simpl. now rewrite app_nil_r.
  - simpl. rewrite (for_loads _ push_user vs us d Hvs), push_users_fold. reflexivity.
Qed.

Lemma external_systems_step o xs d :
  loads_key loads_external_system o "external_systems" xs →
  if_key o "external_systems" (for_json load_external_system) d =
  (mk_diagram (system_name d) (output_filename d) (users d)
     (external_systems d ++ xs) (relationships d), Ok tt).
Proof.
  unfold if_key. intros [[H ->]|(vs & H & Hvs)]; rewrite H.
  - pysimpl. destruct d; simpl. now rewrite app_nil_r.
  - simpl. rewrite (for_loads _ push_external_system vs xs d Hvs).
    rewrite push_external_systems_fold. reflexivity.
Qed.

End ContextFacts.

(** ** Level 2 *)

Module ContainerFacts.
Import Container ContainerSpec.


Lemma load_container_ok c d :
  valid_container c → load_container (container_to_json c) d = (push_container c d, Ok tt).
Proof.
  destruct c as [n t de ty sc]; unfold valid_container; simpl; intros (Hn & Ht).
  pysimpl. rewrite !as_opt_str_json_of_opt. pysimpl.
  apply String.eqb_neq in Hn, Ht. now rewrite Hn, Ht.
Qed.

Lemma container_load_relationship_ok r d :
  valid_relationship r →
  load_relationship (relationship_to_json r) d = (push_relationship r d, Ok tt).
Proof.
  destruct r as [s t l p b]; unfold valid_relationship; simpl; intros (Hs & Ht & Hl).
  pysimpl. rewrite !as_opt_str_json_of_opt. pysimpl.
  apply String.eqb_neq in Hs, Ht, Hl. now rewrite Hs, Ht, Hl.
Qed.

Lemma load_containers_ok cs d :
  Forall valid_container cs →
  for_ load_container (map container_to_json cs) d =
  (mk_diagram (system_name d) (output_filename d) (containers d ++ cs) (relationships d), Ok tt).
Proof.
  revert d; induction cs as [|c cs IH]; intros d H.
  - destruct d; simpl; now rewrite app_nil_r.
  - inversion H; subst. cbn [map].
    erewrite for_cons_ok by (apply load_container_ok; assumption).
    rewrite IH by assumption. simpl. now rewrite <- app_assoc.
Qed.

Lemma container_load_relationships_ok rs d :
  Forall valid_relationship rs →
  for_ load_relationship (map relationship_to_json rs) d =
  (mk_diagram (system_name d) (output_filename d) (containers d) (relationships d ++ rs), Ok tt).
Proof.
  revert d; induction rs as [|r rs IH]; intros d H.
  - destruct d; simpl; now rewrite app_nil_r.
  - inversion H; subst. cbn [map].
    erewrite for_cons_ok by (apply container_load_relationship_ok; assumption).
    rewrite IH by assumption. simpl. now rewrite <- app_assoc.
Qed.

Lemma container_run_op_valid o d d' :
  run_op o d = (d', Ok tt) → valid_diagram d → valid_diagram d'.
Proof.
  intros H (Hc & Hr); destruct o; simpl in H; unfold_adds; crush_ops; truthy_facts;
    unfold valid_diagram; simpl; repeat split; try assumption;
    apply Forall_app; split;
    (assumption || (apply Forall_singleton;
      cbv [valid_container valid_relationship]; simpl; tauto)).
Qed.

Lemma container_run_ops_valid os d d' :
  run_ops os d = (d', Ok tt) → valid_diagram d → valid_diagram d'.
Proof.
  unfold run_ops; revert d; induction os as [|o os IH]; intros d H Hv.
  - simpl in H. now inversion H; subst.
  - simpl in H. unfold mbind, PyM_bind in H.
    destruct (run_op o d) as [d1 [[]|e]] eqn:E; [|discriminate].
    eapply IH; [exact H|]. eapply container_run_op_valid; eassumption.
Qed.

Lemma container_init_valid sys fn : valid_diagram (init sys fn).
Proof. repeat split; constructor. Qed.

Lemma container_round_trip d sys fn :
  valid_diagram d →
  from_json (to_json d) (init sys fn) =
  (mk_diagram (system_name d) fn (containers d) (relationships d), Ok tt).
Proof.
  intros (Hc & Hr). unfold from_json, to_json, if_key. pysimpl.
  rewrite load_containers_ok by assumption. simpl.
  rewrite container_load_relationships_ok by assumption. reflexivity.
Qed.

End ContainerFacts.

(** ** Level 3 *)

Module ComponentFacts.
Import Component ComponentSpec.


Lemma load_component_ok c d :
  valid_component c → load_component (component_to_json c) d = (push_component c d, Ok tt).
Proof.
  destruct c as [n t de ty i]; unfold valid_component; simpl; intros (Hn & Ht).
  pysimpl. rewrite !as_opt_str_json_of_opt. pysimpl.
  apply String.eqb_neq in Hn, Ht. now rewrite Hn, Ht.
Qed.

Lemma component_load_relationship_ok r d :
  valid_relationship r →
  load_relationship (relationship_to_json r) d = (push_relationship r d, Ok tt).
Proof.
  destruct r as [s t l p b a]; unfold valid_relationship; simpl; intros (Hs & Ht & Hl).
  pysimpl. rewrite !as_opt_str_json_of_opt. pysimpl.
  apply String.eqb_neq in Hs, Ht, Hl. now rewrite Hs, Ht, Hl.
Qed.

Lemma load_components_ok cs d :
  Forall valid_component cs →
  for_ load_component (map component_to_json cs) d =
  (mk_diagram (container_name d) (output_filename d) (components d ++ cs) (relationships d), Ok tt).
Proof.
  revert d; induction cs as [|c cs IH]; intros d H.
  - destruct d; simpl; now rewrite app_nil_r.
  - inversion H; subst. cbn [map].
    erewrite for_cons_ok by (apply load_component_ok; assumption).
    rewrite IH by assumption. simpl. now rewrite <- app_assoc.
Qed.

Lemma component_load_relationships_ok rs d :
  Forall valid_relationship rs →
  for_ load_relationship (map relationship_to_json rs) d =
  (mk_diagram (container_name d) (output_filename d) (components d) (relationships d ++ rs), Ok tt).
Proof.
  revert d; induction rs as [|r rs IH]; intros d H.
  - destruct d; simpl; now rewrite app_nil_r.
  - inversion H; subst. cbn [map].
    erewrite for_cons_ok by (apply component_load_relationship_ok; assumption).
    rewrite IH by assumption. simpl. now rewrite <- app_assoc.
Qed.

Lemma component_run_op_valid o d d' :
  run_op o d = (d', Ok tt) → valid_diagram d → valid_diagram d'.
Proof.
  intros H (Hc & Hr); destruct o; simpl in H; unfold_adds; crush_ops; truthy_facts;
    unfold valid_diagram; simpl; repeat split; try assumption;
    apply Forall_app; split;
    (assumption || (apply Forall_singleton;
      cbv [valid_component valid_relationship]; simpl; tauto)).
Qed.

Lemma component_run_ops_valid os d d' :
  run_ops os d = (d', Ok tt) → valid_diagram d → valid_diagram d'.
Proof.
  unfold run_ops; revert d; induction os as [|o os IH]; intros d H Hv.
  - simpl in H. now inversion H; subst.
  - simpl in H. unfold mbind, PyM_bind in H.
    destruct (run_op o d) as [d1 [[]|e]] eqn:E; [|discriminate].
    eapply IH; [exact H|]. eapply component_run_op_valid; eassumption.
Qed.

Lemma component_init_valid cn fn : valid_diagram (init cn fn).
Proof. repeat split; constructor. Qed.

Lemma component_round_trip d cn fn :
  valid_diagram d →
  from_json (to_json d) (init cn fn) =
  (mk_diagram (container_name d) fn (components d) (relationships d), Ok tt).
Proof.
  intros (Hc & Hr). unfold from_json, to_json, if_key. pysimpl.
  rewrite load_components_ok by assumption. simpl.
  rewrite component_load_relationships_ok by assumption. reflexivity.
Qed.

End ComponentFacts.

(** ** C1: the JSON round trip *)

(** C1: for every diagram [d] built solely through the public add-operations
    on a fresh instance of the context, container or component level,
    [from_json] applied on another fresh instance of the same level to
    [to_json d] succeeds and rebuilds entity and relationship collections
    equal, in content and order, to those of [d]; the title is [d]'s as well.
    At the code level no diagram can be built: a program using
    [C4CodeDiagram] raises [SyntaxError] at its import. *)
Theorem to_json_from_json_round_trip :
  (∀ sys fn (os : list Context.op) d sys' fn',
     Context.run_ops os (Context.init sys fn) = (d, Ok tt) →
     Context.from_json (Context.to_json d) (Context.init sys' fn') =
     (Context.mk_diagram (Context.system_name d) fn' (Context.users d)
        (Context.external_systems d) (Context.relationships d), Ok tt)) ∧
  (∀ sys fn (os : list Container.op) d sys' fn',
     Container.run_ops os (Container.init sys fn) = (d, Ok tt) →
     Container.from_json (Container.to_json d) (Container.init sys' fn') =
     (Container.mk_diagram (Container.system_name d) fn' (Container.containers d)
        (Container.relationships d), Ok tt)) ∧
  (∀ cn fn (os : list Component.op) d cn' fn',
     Component.run_ops os (Component.init cn fn) = (d, Ok tt) →
     Component.from_json (Component.to_json d) (Component.init cn' fn') =
     (Component.mk_diagram (Component.container_name d) fn' (Component.components d)
        (Component.relationships d), Ok tt)) ∧
  (∀ A (rest : res A), from_C4_import rest = Err (SyntaxError "'(' was never closed" 240)).
Proof.
  split; [|split; [|split]]; [intros t fn os d t' fn' H..|].
  - apply ContextFacts.context_round_trip.
    eapply ContextFacts.context_run_ops_valid; [exact H|apply ContextFacts.context_init_valid].
  - apply ContainerFacts.container_round_trip.
    eapply ContainerFacts.container_run_ops_valid; [exact H|apply ContainerFacts.container_init_valid].
  - apply ComponentFacts.component_round_trip.
    eapply ComponentFacts.component_run_ops_valid; [exact H|apply ComponentFacts.component_init_valid].
  - intros A rest. apply from_C4_import_fails.
Qed.

Lemma to_json_from_json_round_trip_witness :
  let os := [Context.AddUser (Some "User A") None None;
             Context.AddExternalSystem (Some "Payments API") None None;
             Context.AddRelationship (Some "User A") (Some "Payments API") (Some "calls") false] in
  let d := exec (Context.run_ops os) (Context.init "Sys" "out") in
  let os2 := [Container.AddContainer (Some "Web") (Some "React") None "Application" None;
              Container.AddContainer (Some "DB") (Some "Postgres") None "Database" (Some "orders");
              Container.AddRelationship (Some "Web") (Some "DB") (Some "reads") (Some "SQL") false] in
  let d2 := exec (Container.run_ops os2) (Container.init "Shop" "shop") in
  let os3 := [Component.AddComponent (Some "Orders") (Some "Flask") None "Service" None;
              Component.AddComponent (Some "Auth") (Some "JWT") None "Service" (Some "IAuth");
              Component.AddRelationship (Some "Orders") (Some "Auth") (Some "checks") None
                false true] in
  let d3 := exec (Component.run_ops os3) (Component.init "API" "api") in
  Context.from_json (Context.to_json d) (Context.init "Tmp" "out2") =
  (Context.mk_diagram (Context.system_name d) "out2" (Context.users d)
     (Context.external_systems d) (Context.relationships d), Ok tt) ∧
  Container.from_json (Container.to_json d2) (Container.init "Tmp" "out2") =
  (Container.mk_diagram (Container.system_name d2) "out2" (Container.containers d2)
     (Container.relationships d2), Ok tt) ∧
  Component.from_json (Component.to_json d3) (Component.init "Tmp" "out2") =
  (Component.mk_diagram (Component.container_name d3) "out2" (Component.components d3)
     (Component.relationships d3), Ok tt).
Proof.
  intros os d os2 d2 os3 d3.
  destruct to_json_from_json_round_trip as (H1 & H2 & H3 & _). split; [|split].
  - apply (H1 "Sys" "out" os). reflexivity.
  - apply (H2 "Shop" "shop" os2). reflexivity.
  - apply (H3 "API" "api" os3). reflexivity.
Defined.

(** ** C9: [from_json] is not atomic *)

(** C9: [from_json] is not atomic. Take any JSON object [o] and any
    diagram [d]; [from_json] sets the title, then loads the users, the
    external systems and the relationships, in this order. When the list of
    one of these keys has a first item that raises (an empty name, an empty
    source, target or label, a missing key, a value of the wrong type), after
    items [vs1] that load as the records [ys], [from_json] raises that item's
    exception, and the diagram keeps the new title, the records loaded from
    the earlier keys and the records [ys], appended in document order; no
    earlier state is restored. *)
Theorem from_json_not_atomic :
  (∀ o (d : Context.diagram) s vs1 v vs2 ys e,
     title_from o d s →
     obj_lookup "users" o = Some (JArr (vs1 ++ v :: vs2)) →
     Forall2 loads_user vs1 ys →
     outcome (Context.load_user v) d = Err e →
     Context.from_json (JObj o) d =
     (Context.mk_diagram s (Context.output_filename d) (Context.users d ++ ys)
        (Context.external_systems d) (Context.relationships d), Err e)) ∧
  (∀ o (d : Context.diagram) s us vs1 v vs2 xs e,
     title_from o d s →
     loads_key loads_user o "users" us →
     obj_lookup "external_systems" o = Some (JArr (vs1 ++ v :: vs2)) →
     Forall2 loads_external_system vs1 xs →
     outcome (Context.load_external_system v) d = Err e →
     Context.from_json (JObj o) d =
     (Context.mk_diagram s (Context.output_filename d) (Context.users d ++ us)
        (Context.external_systems d ++ xs) (Context.relationships d), Err e)) ∧
  (∀ o (d : Context.diagram) s us xs vs1 v vs2 rs e,
     title_from o d s →
     loads_key loads_user o "users" us →
     loads_key loads_external_system o "external_systems" xs →
     obj_lookup "relationships" o = Some (JArr (vs1 ++ v :: vs2)) →
     Forall2 loads_relationship vs1 rs →
     outcome (Context.load_relationship v) d = Err e →
     Context.from_json (JObj o) d =
     (Context.mk_diagram s (Context.output_filename d) (Context.users d ++ us)
        (Context.external_systems d ++ xs) (Context.relationships d ++ rs), Err e)).
Proof.
  split; [|split].
  - intros o d s vs1 v vs2 ys e Ht Hk Hvs Hv. unfold Context.from_json.
    erewrite bind_ok by (apply ContextFacts.title_step; exact Ht). cbv beta.
    apply bind_err. unfold Context.if_key at 1. rewrite Hk. simpl for_json.
    rewrite (for_loads_then_err _ Context.push_user vs1 v vs2 ys _ e Hvs
               (ContextFacts.load_user_err v d e Hv)).
    rewrite ContextFacts.push_users_fold. reflexivity.
  - intros o d s us vs1 v vs2 xs e Ht Hu Hk Hvs Hv. unfold Context.from_json.
    erewrite bind_ok by (apply ContextFacts.title_step; exact Ht). cbv beta.
    erewrite bind_ok by (apply ContextFacts.users_step; exact Hu). cbv beta.
    apply bind_err. unfold Context.if_key at 1. rewrite Hk. simpl for_json.
    rewrite (for_loads_then_err _ Context.push_external_system vs1 v vs2 xs _ e Hvs
               (ContextFacts.load_external_system_err v d e Hv)).
    rewrite ContextFacts.push_external_systems_fold. reflexivity.
  - intros o d s us xs vs1 v vs2 rs e Ht Hu Hx Hk Hvs Hv. unfold Context.from_json.
    erewrite bind_ok by (apply ContextFacts.title_step; exact Ht). cbv beta.
    erewrite bind_ok by (apply ContextFacts.users_step; exact Hu). cbv beta.
    erewrite bind_ok by (apply ContextFacts.external_systems_step; exact Hx). cbv beta.
    unfold Context.if_key at 1. rewrite Hk. simpl for_json.
    rewrite (for_loads_then_err _ Context.push_relationship vs1 v vs2 rs _ e Hvs
               (ContextFacts.load_relationship_err v d e Hv)).
    rewrite ContextFacts.push_relationships_fold. reflexivity.
Qed.

Lemma from_json_not_atomic_witness :
  Context.from_json
    (JObj [("system_name", JStr "Shop");
           ("users", JArr [user_item "Alice"; user_item ""; user_item "Carol"])])
    (Context.init "Sys" "out") =
  (Context.mk_diagram "Shop" "out" [Context.mk_user "Alice" None None] [] [],
   Err (ValueError "User name cannot be empty")) ∧
  Context.from_json
    (JObj [("system_name", JStr "Shop"); ("users", JArr [user_item "Alice"]);
           ("external_systems",
             JArr [JObj [("name", JStr "Bank")]; JObj [("protocol", JStr "REST")]])])
    (Context.init "Sys" "out") =
  (Context.mk_diagram "Shop" "out" [Context.mk_user "Alice" None None]
     [Context.mk_external_system "Bank" None None] [],
   Err (KeyError "name")) ∧
  Context.from_json
    (JObj [("users", JArr [user_item "Alice"]);
           ("relationships",
             JArr [relationship_item "Alice" "Sys" "uses"; relationship_item "Sys" "Alice" "notifies";
                   relationship_item "Alice" "Bank" ""])])
    (Context.init "Sys" "out") =
  (Context.mk_diagram "Sys" "out" [Context.mk_user "Alice" None None] []
     [Context.mk_relationship "Alice" "Sys" "uses" false;
      Context.mk_relationship "Sys" "Alice" "notifies" false],
   Err (ValueError "Source, target and label cannot be empty")).
Proof.
  destruct from_json_not_atomic as (H1 & H2 & H3). split; [|split].
  - apply (H1 _ (Context.init "Sys" "out") "Shop" [user_item "Alice"] (user_item "")
             [user_item "Carol"] [Context.mk_user "Alice" None None]).
    + left. reflexivity.
    + reflexivity.
    + constructor; [intros d; reflexivity|constructor].
    + reflexivity.
  - apply (H2 _ (Context.init "Sys" "out") "Shop" [Context.mk_user "Alice" None None]
             [JObj [("name", JStr "Bank")]] (JObj [("protocol", JStr "REST")]) []
             [Context.mk_external_system "Bank" None None]).
    + left. reflexivity.
    + right. exists [user_item "Alice"]. split; [reflexivity|].
      constructor; [intros d; reflexivity|constructor].
    + reflexivity.
    + constructor; [intros d; reflexivity|constructor].
    + reflexivity.
  - apply (H3 _ (Context.init "Sys" "out") "Sys" [Context.mk_user "Alice" None None] []
             [relationship_item "Alice" "Sys" "uses"; relationship_item "Sys" "Alice" "notifies"]
             (relationship_item "Alice" "Bank" "") []
             [Context.mk_relationship "Alice" "Sys" "uses" false;
              Context.mk_relationship "Sys" "Alice" "notifies" false]).
    + right. split; reflexivity.
    + right. exists [user_item "Alice"]. split; [reflexivity|].
      constructor; [intros d; reflexivity|constructor].
    + left. split; reflexivity.
    + reflexivity.
    + repeat constructor; intros d; reflexivity.
    + reflexivity.
Defined.

(** ** C3: empty source, target or label *)





(** ** C5: rejected formats and empty diagrams *)






(** ** C6: names are not checked for uniqueness *)




(** ** Drawing: the [Gen] monad and the layouts *)

Lemma gen_bind_ext {A B} (m : Gen A) (f g : A → Gen B) :
  (∀ a, f a = g a) → (m ≫= f) = (m ≫= g).
Proof. intros H. destruct m as [w [a|e]]; unfold mbind, Gen_bind; [rewrite H|]; reflexivity. Qed.


Lemma gen_bind_ok_app {A B} (m : Gen A) (f : A → Gen B) w a w' r :
  m = (w, Ok a) → f a = (w', r) → (m ≫= f) = (w ++ w', r).
Proof. intros -> H. unfold mbind, Gen_bind. now rewrite H. Qed.



Lemma for_gen_ok {A} (f : A → Gen unit) l :
  (∀ x, ∃ w, f x = (w, Ok tt)) → ∃ w, for_ f l = (w, Ok tt).
Proof.
  intros H. induction l as [|x l IH]; simpl; [eexists; reflexivity|].
  destruct (H x) as [w Hw], IH as [w' Hw'].
  exists (w ++ w'). eapply gen_bind_ok_app; eassumption.
Qed.

Lemma check_format_ok fmt : In fmt formats → check_format fmt = ([], Ok tt).
Proof.
  intros H. unfold check_format.
  replace (existsb (String.eqb fmt) formats) with true; [reflexivity|].
  symmetry. apply existsb_exists. exists fmt. split; [exact H|apply String.eqb_refl].
Qed.

Lemma in_zip_snd {A B} (l1 : list A) (l2 : list B) ab :
  In ab (zip l1 l2) → In ab.2 l2.
Proof.
  revert l1. induction l2 as [|b l2 IH]; intros [|a l1] H; simpl in *; try contradiction.
  destruct H as [<-|H]; [left; reflexivity|right; eapply IH; exact H].
Qed.

Lemma fold_left_lookup_unchanged {A} (f : positions → A → positions) l pos n :
  (∀ p x, In x l → f p x !! n = p !! n) →
  fold_left f l pos !! n = pos !! n.
Proof.
  revert pos. induction l as [|x l IH]; intros pos H; simpl; [reflexivity|].
  rewrite IH; [apply H; left; reflexivity|].
  intros p y Hy. apply H. right. exact Hy.
Qed.

Lemma Qnat_pos n : (0 < n)%nat → ¬ (Qnat n == 0)%Q.
Proof.
  intros H E. unfold Qnat, Qeq in E. simpl in E. lia.
Qed.

Lemma py_div_ok a n : (0 < n)%nat → py_div a (Qnat n) = Ok (a / Qnat n)%Q.
Proof.
  intros H. unfold py_div. destruct (Qeq_bool (Qnat n) 0) eqn:E; [|reflexivity].
  apply Qeq_bool_eq in E. exfalso. exact (Qnat_pos n H E).
Qed.

Lemma Qnat_lt i j : (i < j)%nat → (Qnat i < Qnat j)%Q.
Proof. intros H. unfold Qnat. rewrite <- Zlt_Qlt. lia. Qed.

Lemma vertical_spacing_pos d : (0 < Context.vertical_spacing d)%Q.
Proof.
  unfold Context.vertical_spacing. apply Qlt_shift_div_l.
  - unfold Qnat, Qlt. simpl. lia.
  - reflexivity.
Qed.

Section Layouts.
Variables cosd sind : Q -> Q.

Lemma fold_draw_container step pos l :
  fold_gen (Container.draw_container cosd sind step) pos l =
  (map (λ ic : nat * Container.container,
          Draw (Text (cosd (Qnat ic.1 * step) * Container.radius)%Q
                     (sind (Qnat ic.1 * step) * Container.radius)%Q
                     (Container.container_label ic.2)
                     (Some (Container.get_container_color (Container.type ic.2))))) l,
   Ok (fold_left (λ p (ic : nat * Container.container),
                    <[Container.name ic.2 := ((cosd (Qnat ic.1 * step) * Container.radius)%Q,
                                              (sind (Qnat ic.1 * step) * Container.radius)%Q)]> p)
                 l pos)).
Proof.
  revert pos. induction l as [|[i c] l IH]; intros pos; [reflexivity|].
  cbn [fold_gen]. erewrite gen_bind_ok_app; [| reflexivity | apply IH].
  reflexivity.
Qed.

(** The position of a name is the one of its last occurrence: a later
    component of the same name overwrites an earlier one. *)
Lemma place_lookup_last step l k pos i c :
  l !! i = Some c →
  (∀ j c', (i < j)%nat → l !! j = Some c' → Component.name c' ≠ Component.name c) →
  fold_left (Component.place cosd sind step) (zip (seq k (length l)) l) pos
    !! Component.name c =
  Some ((cosd (Qnat (k + i) * step) * Component.radius)%Q,
        (sind (Qnat (k + i) * step) * Component.radius)%Q).
Proof.
  revert k pos i. induction l as [|c0 l IH]; intros k pos i Hi Hlast; [discriminate|].
  destruct i as [|i]; simpl in Hi |- *.
  - injection Hi as <-. rewrite fold_left_lookup_unchanged.
    + rewrite Nat.add_0_r. apply lookup_insert_eq.
    + intros p [j c'] Hin. simpl. apply lookup_insert_ne.
      apply in_zip_snd in Hin. simpl in Hin.
      apply list_elem_of_In, list_elem_of_lookup_1 in Hin as [m Hm].
      intros E. apply (Hlast (S m) c'); [lia|exact Hm|congruence].
  - rewrite (IH (S k) _ i Hi).
    + now replace (S k + i)%nat with (k + S i)%nat by lia.
    + intros j c' Hij Hj. apply (Hlast (S j) c'); [lia|exact Hj].
Qed.

End Layouts.

(** Runs a chain of [Gen] binds whose steps all succeed. *)
Ltac gen_run :=
  cbv beta;
  lazymatch goal with
  | |- (_ ≫= _) = _ =>
      eapply eq_trans;
      [eapply gen_bind_ok_app;
         [first [reflexivity | apply fold_draw_container | eassumption] | gen_run]
      | reflexivity]
  | |- _ => reflexivity
  end.

(** ** C8: distinct vertical offsets at the context level *)

(** C8: at the context level, two users at different indices get different
    y-offsets, and so do two external systems; this holds for any numbers
    of users and external systems, since the vertical spacing is positive. *)
Theorem context_y_offsets_distinct :
  ∀ d i j, (i < j)%nat →
    ¬ (Context.y_offset i (length (Context.users d)) (Context.vertical_spacing d) ==
       Context.y_offset j (length (Context.users d)) (Context.vertical_spacing d))%Q ∧
    ¬ (Context.y_offset i (length (Context.external_systems d)) (Context.vertical_spacing d) ==
       Context.y_offset j (length (Context.external_systems d)) (Context.vertical_spacing d))%Q.
Proof.
  intros d i j Hij. unfold Context.y_offset.
  split; apply Qlt_not_eq; apply Qmult_lt_r; try apply vertical_spacing_pos;
    apply Qplus_lt_l; apply Qnat_lt; exact Hij.
Qed.

Lemma context_y_offsets_distinct_witness :
  let d := exec (Context.add_user (Some "Alice") None None ;;
                 Context.add_user (Some "Bob") None None) (Context.init "Bank" "out") in
  ¬ (Context.y_offset 0 (length (Context.users d)) (Context.vertical_spacing d) ==
     Context.y_offset 1 (length (Context.users d)) (Context.vertical_spacing d))%Q.
Proof. intros d. apply (context_y_offsets_distinct d 0 1). lia. Defined.

(** ** C4: the circular layouts *)

(** C4 (as stated): with no entity the step is never computed from [n = 1]:
    the container-level [generate] raises [ValueError] and draws nothing,
    and the component-level [_calculate_positions] divides by zero. *)
Lemma empty_layout_not_treated_as_one :
  Container.generate (λ a, a) (λ a, a) (Container.init "Bank" "out") "png" =
  ([], Err (ValueError "No containers added to diagram")) ∧
  Component.calculate_positions (λ a, a) (λ a, a) (Component.init "API" "out") =
  Err ZeroDivisionError.
Proof. split; reflexivity. Qed.

(** C4 (amended): with [n >= 1] containers, the step is [360/n] and the
    [i]-th container's box is drawn at [(cos(i*step)*6, sin(i*step)*6)], in
    insertion order, right after the title and the system box. With
    [n >= 1] components, [_calculate_positions] maps the name of the [i]-th
    one to [(cos(i*step)*5, sin(i*step)*5)] when no later component has the
    same name: a later duplicate name overrides an earlier one. There is no
    [n = 1] fallback for [n = 0]: [generate] raises [ValueError] at both
    levels before any step is computed, and [_calculate_positions] called on
    no components raises [ZeroDivisionError]. *)
Theorem circular_layout :
  (∀ cosd sind d fmt, In fmt formats → Container.containers d ≠ [] →
     let step := (360 / Qnat (length (Container.containers d)))%Q in
     ∃ rest,
       Container.generate cosd sind d fmt =
       ([Mkdir output_dir;
         Draw (Title ("C4 Level 2: Container Diagram - " +:+ Container.system_name d));
         Draw (Text 0 0 (Container.system_name d) (Some ("#bbdefb", "black")))] ++
        map (λ ic : nat * Container.container,
               Draw (Text (cosd (Qnat ic.1 * step) * Container.radius)%Q
                          (sind (Qnat ic.1 * step) * Container.radius)%Q
                          (Container.container_label ic.2)
                          (Some (Container.get_container_color (Container.type ic.2)))))
            (enumerate (Container.containers d)) ++ rest,
        Ok (output_path (Container.output_filename d) fmt))) ∧
  (∀ cosd sind d, Component.components d ≠ [] →
     let step := (360 / Qnat (length (Component.components d)))%Q in
     ∃ pos, Component.calculate_positions cosd sind d = Ok pos ∧
       ∀ i c, Component.components d !! i = Some c →
         (∀ j c', (i < j)%nat → Component.components d !! j = Some c' →
                  Component.name c' ≠ Component.name c) →
         pos !! Component.name c =
         Some ((cosd (Qnat i * step) * Component.radius)%Q,
               (sind (Qnat i * step) * Component.radius)%Q)) ∧
  (∀ cosd sind fmt d, In fmt formats → Container.containers d = [] →
     Container.generate cosd sind d fmt =
     ([], Err (ValueError "No containers added to diagram"))) ∧
  (∀ cosd sind fmt d, In fmt formats → Component.components d = [] →
     Component.generate cosd sind d fmt =
     ([], Err (ValueError "No components added to diagram"))) ∧
  (∀ cosd sind d, Component.components d = [] →
     Component.calculate_positions cosd sind d = Err ZeroDivisionError).
Proof.
  split; [|split; [|split; [|split]]].
  - intros cosd sind d fmt Hfmt Hne step.
    assert (Hlen : (0 < length (Container.containers d))%nat)
      by (destruct (Container.containers d); [congruence|simpl; lia]).
    destruct (for_gen_ok
                (Container.draw_relationship d
                   (fold_left (λ p (ic : nat * Container.container),
                      <[Container.name ic.2 := ((cosd (Qnat ic.1 * step) * Container.radius)%Q,
                                                (sind (Qnat ic.1 * step) * Container.radius)%Q)]> p)
                      (enumerate (Container.containers d)) ∅))
                (Container.relationships d)) as [w Hw].
    { intros r. unfold Container.draw_relationship.
      repeat case_match; eexists; reflexivity. }
    exists (w ++ [Savefig (output_path (Container.output_filename d) fmt) fmt; Close]).
    unfold Container.generate. rewrite (check_format_ok fmt Hfmt).
    rewrite bool_decide_eq_false_2 by exact Hne.
    unfold lift_res. rewrite (py_div_ok _ _ Hlen).
    unfold save. eapply eq_trans; [gen_run|].
    simpl. rewrite <- ?app_assoc. reflexivity.
  - intros cosd sind d Hne step.
    assert (Hlen : (0 < length (Component.components d))%nat)
      by (destruct (Component.components d); [congruence|simpl; lia]).
    eexists. split.
    + unfold Component.calculate_positions. rewrite (py_div_ok _ _ Hlen). reflexivity.
    + intros i c Hi Hlast. unfold enumerate.
      apply (place_lookup_last cosd sind _ _ 0); assumption.
  - intros cosd sind fmt d Hfmt He. unfold Container.generate.
    rewrite (check_format_ok fmt Hfmt), He. reflexivity.
  - intros cosd sind fmt d Hfmt He. unfold Component.generate.
    rewrite (check_format_ok fmt Hfmt), He. reflexivity.
  - intros cosd sind d He. unfold Component.calculate_positions. rewrite He. reflexivity.
Qed.

Lemma circular_layout_witness :
  (let d := shop_container in
   let step := (360 / Qnat (length (Container.containers d)))%Q in
   ∃ rest,
     Container.generate (λ a, a) (λ a, a) d "png" =
     ([Mkdir output_dir;
       Draw (Title ("C4 Level 2: Container Diagram - " +:+ Container.system_name d));
       Draw (Text 0 0 (Container.system_name d) (Some ("#bbdefb", "black")))] ++
      map (λ ic : nat * Container.container,
             Draw (Text (Qnat ic.1 * step * Container.radius)%Q
                        (Qnat ic.1 * step * Container.radius)%Q
                        (Container.container_label ic.2)
                        (Some (Container.get_container_color (Container.type ic.2)))))
          (enumerate (Container.containers d)) ++ rest,
      Ok (output_path (Container.output_filename d) "png"))) ∧
  (let d := Component.mk_diagram "API" "api"
              [Component.mk_component "A" "Flask" None "Service" None;
               Component.mk_component "B" "Flask" None "Service" None;
               Component.mk_component "A" "Go" None "Service" None] [] in
   let step := (360 / Qnat (length (Component.components d)))%Q in
   ∃ pos, Component.calculate_positions (λ a, a) (λ a, a) d = Ok pos ∧
     pos !! "A" = Some ((Qnat 2 * step * Component.radius)%Q,
                        (Qnat 2 * step * Component.radius)%Q)) ∧
  Container.generate (λ a, a) (λ a, a) (Container.init "Bank" "out") "svg" =
    ([], Err (ValueError "No containers added to diagram")) ∧
  Component.generate (λ a, a) (λ a, a) (Component.init "API" "out") "svg" =
    ([], Err (ValueError "No components added to diagram")) ∧
  Component.calculate_positions (λ a, a) (λ a, a) (Component.init "API" "out") =
    Err ZeroDivisionError.
Proof.
  destruct circular_layout as (H1 & H2 & H3 & H4 & H5).
  split; [|split; [|split; [|split]]].
  - apply (H1 (λ a, a) (λ a, a) shop_container "png"); [simpl; tauto|discriminate].
  - destruct (H2 (λ a, a) (λ a, a)
                (Component.mk_diagram "API" "api"
                   [Component.mk_component "A" "Flask" None "Service" None;
                    Component.mk_component "B" "Flask" None "Service" None;
                    Component.mk_component "A" "Go" None "Service" None] []))
      as (pos & Hpos & Hlook); [discriminate|].
    exists pos. split; [exact Hpos|].
    apply (Hlook 2 (Component.mk_component "A" "Go" None "Service" None)); [reflexivity|].
    intros j c' Hj Hc'. exfalso.
    destruct j as [|[|[|j]]]; simpl in Hc'; try lia; discriminate.
  - apply H3; [simpl; tauto|reflexivity].
  - apply H4; [simpl; tauto|reflexivity].
  - apply H5. reflexivity.
Defined.

(** ** C7: where the labels of the connectors go *)

Lemma find_relationship_found s t l r :
  Context.find_relationship s t l = Some r →
  (Context.source r = s ∧ Context.target r = t) ∨
  (Context.bidirectional r = true ∧ Context.source r = t ∧ Context.target r = s).
Proof.
  induction l as [|r' l IH]; simpl; [discriminate|].
  destruct (String.eqb (Context.source r') s) eqn:E1,
           (String.eqb (Context.target r') t) eqn:E2; simpl;
  try (intros [= <-]; left; split; apply String.eqb_eq; assumption);
  destruct (Context.bidirectional r') eqn:Eb,
           (String.eqb (Context.source r') t) eqn:E3,
           (String.eqb (Context.target r') s) eqn:E4; simpl; try exact IH;
  intros [= <-]; right; repeat split; try assumption; apply String.eqb_eq; assumption.
Qed.




(** ** C2: relationships naming unknown entities *)

Lemma find_relationship_skip s t l1 r l2 :
  (String.eqb (Context.source r) s && String.eqb (Context.target r) t) = false →
  (Context.bidirectional r && String.eqb (Context.source r) t &&
   String.eqb (Context.target r) s) = false →
  Context.find_relationship s t (l1 ++ r :: l2) = Context.find_relationship s t (l1 ++ l2).
Proof.
  intros H1 H2. induction l1 as [|r' l1 IH]; simpl.
  - now rewrite H1, H2.
  - now rewrite IH.
Qed.






(* ------------------------------------------------------------------ *)
(** * Further properties of the code *)

(** ** Output file names *)

Lemma forallb_In_true {A} (f : A → bool) l x : forallb f l = true → In x l → f x = true.
Proof. intros H Hx. rewrite forallb_forall in H. exact (H x Hx). Qed.

Lemma isidentifier_no_sep fn :
  (fn = "" ∨ In "/"%char (list_ascii_of_string fn) ∨ In "."%char (list_ascii_of_string fn)) →
  isidentifier fn = false.
Proof.
  intros H. destruct fn as [|c s]; [reflexivity|].
  unfold isidentifier. destruct (is_id_start c) eqn:Hc; [|reflexivity]. simpl.
  destruct (forallb is_id_continue (list_ascii_of_string s)) eqn:Hs; [|reflexivity].
  exfalso. simpl in H.
  destruct H as [H|[[->|H]|[->|H]]];
    first [ discriminate H | discriminate Hc
          | pose proof (forallb_In_true _ _ _ Hs H) as E; discriminate E ].
Qed.

(** X1: a file name that is empty or contains a ['/'] or a ['.'] is refused
    by the constructors of the context, container and component levels with
    [ValueError("Output filename must be a valid identifier")]: no diagram is
    created. *)
Theorem constructors_reject_path_like_filenames sys fn :
  (fn = "" ∨ In "/"%char (list_ascii_of_string fn) ∨ In "."%char (list_ascii_of_string fn)) →
  context_new sys fn = Err (ValueError "Output filename must be a valid identifier") ∧
  container_new sys fn = Err (ValueError "Output filename must be a valid identifier") ∧
  component_new sys fn = Err (ValueError "Output filename must be a valid identifier").
Proof.
  intros H. unfold context_new, container_new, component_new, validate_filename.
  rewrite (isidentifier_no_sep fn H). repeat split.
Qed.

Lemma constructors_reject_path_like_filenames_witness :
  context_new "Shop" "../etc/passwd" =
    Err (ValueError "Output filename must be a valid identifier") ∧
  container_new "Shop" "../etc/passwd" =
    Err (ValueError "Output filename must be a valid identifier") ∧
  component_new "Shop" "../etc/passwd" =
    Err (ValueError "Output filename must be a valid identifier").
Proof.
  apply constructors_reject_path_like_filenames. right. right. simpl. left. reflexivity.
Defined.

(** ** Loading into a diagram that is not empty *)

(** X2: [from_json] adds to what the diagram holds. Loading the export of a
    valid diagram [d] into any diagram [d'] of the same level takes [d]'s
    title, keeps [d']'s output file name, and appends [d]'s collections to
    [d']'s; nothing is replaced or deduplicated. *)
Theorem from_json_appends_to_diagram :
  (∀ d d', ContextSpec.valid_diagram d →
     Context.from_json (Context.to_json d) d' =
     (Context.mk_diagram (Context.system_name d) (Context.output_filename d')
        (Context.users d' ++ Context.users d)
        (Context.external_systems d' ++ Context.external_systems d)
        (Context.relationships d' ++ Context.relationships d), Ok tt)) ∧
  (∀ d d', ContainerSpec.valid_diagram d →
     Container.from_json (Container.to_json d) d' =
     (Container.mk_diagram (Container.system_name d) (Container.output_filename d')
        (Container.containers d' ++ Container.containers d)
        (Container.relationships d' ++ Container.relationships d), Ok tt)) ∧
  (∀ d d', ComponentSpec.valid_diagram d →
     Component.from_json (Component.to_json d) d' =
     (Component.mk_diagram (Component.container_name d) (Component.output_filename d')
        (Component.components d' ++ Component.components d)
        (Component.relationships d' ++ Component.relationships d), Ok tt)).
Proof.
  split; [|split]; intros d d'.
  - intros (Hu & Hx & Hr). unfold Context.from_json, Context.to_json, Context.if_key. pysimpl.
    rewrite ContextFacts.load_users_ok by assumption. simpl.
    rewrite ContextFacts.load_external_systems_ok by assumption. simpl.
    rewrite ContextFacts.context_load_relationships_ok by assumption. reflexivity.
  - intros (Hc & Hr). unfold Container.from_json, Container.to_json, Container.if_key. pysimpl.
    rewrite ContainerFacts.load_containers_ok by assumption. simpl.
    rewrite ContainerFacts.container_load_relationships_ok by assumption. reflexivity.
  - intros (Hc & Hr). unfold Component.from_json, Component.to_json, Component.if_key. pysimpl.
    rewrite ComponentFacts.load_components_ok by assumption. simpl.
    rewrite ComponentFacts.component_load_relationships_ok by assumption. reflexivity.
Qed.

Lemma from_json_appends_to_diagram_witness :
  Context.from_json (Context.to_json shop_context) shop_context =
  (Context.mk_diagram "Shop" "shop"
     [Context.mk_user "Admin" None None; Context.mk_user "Admin" None None] [] [], Ok tt) ∧
  Container.from_json (Container.to_json shop_container) shop_container =
  (Container.mk_diagram "Shop" "shop"
     [Container.mk_container "Web" "React" None "Application" None;
      Container.mk_container "Web" "React" None "Application" None] [], Ok tt) ∧
  Component.from_json (Component.to_json shop_component) shop_component =
  (Component.mk_diagram "API" "api"
     [Component.mk_component "Orders" "Flask" None "Service" None;
      Component.mk_component "Orders" "Flask" None "Service" None] [], Ok tt).
Proof.
  destruct from_json_appends_to_diagram as (H1 & H2 & H3).
  split; [|split].
  - apply (H1 shop_context shop_context).
    repeat split; repeat constructor; discriminate.
  - apply (H2 shop_container shop_container).
    repeat split; repeat constructor; discriminate.
  - apply (H3 shop_component shop_component).
    repeat split; repeat constructor; discriminate.
Defined.

(** ** What [generate] writes *)

Lemma draws_only_ret {A} (a : A) : draws_only (mret a : Gen A).
Proof. exists [], a. reflexivity. Qed.

Lemma draws_only_draw p : draws_only (draw p).
Proof. exists [p], tt. reflexivity. Qed.

Lemma draws_only_bind {A B} (m : Gen A) (f : A → Gen B) :
  draws_only m → (∀ a, draws_only (f a)) → draws_only (m ≫= f).
Proof.
  intros (ps & a & ->) Hf. destruct (Hf a) as (ps' & b & Hb).
  exists (ps ++ ps'), b. unfold mbind, Gen_bind. rewrite Hb, map_app. reflexivity.
Qed.

Lemma draws_only_for {A} (f : A → Gen unit) l :
  (∀ x, In x l → draws_only (f x)) → draws_only (for_ f l).
Proof.
  induction l as [|x l IH]; intros H; simpl; [apply draws_only_ret|].
  apply draws_only_bind; [apply H; left; reflexivity|].
  intros _. apply IH. intros y Hy. apply H. right. exact Hy.
Qed.

Lemma draws_only_fold_gen {A B} (f : A → B → Gen A) acc l :
  (∀ acc x, draws_only (f acc x)) → draws_only (fold_gen f acc l).
Proof.
  revert acc. induction l as [|x l IH]; intros acc H; simpl; [apply draws_only_ret|].
  apply draws_only_bind; [apply H|]. intros a. apply IH, H.
Qed.

Lemma draws_only_lift_ok {A} (a : A) : draws_only (lift_res (Ok a)).
Proof. exists [], a. reflexivity. Qed.

Lemma gen_nil_bind {A B} (m : Gen A) (f : A → Gen B) a : m = ([], Ok a) → (m ≫= f) = f a.
Proof. intros ->. unfold mbind, Gen_bind. now destruct (f a). Qed.

Lemma saves_save fn fmt :
  ∃ ps, save fn fmt =
        (map Draw ps ++ [Savefig (output_path fn fmt) fmt; Close], Ok (output_path fn fmt)).
Proof. exists []. reflexivity. Qed.

Lemma saves_bind {A} (m : Gen A) (f : A → Gen string) fn fmt :
  draws_only m →
  (∀ a, ∃ ps, f a = (map Draw ps ++ [Savefig (output_path fn fmt) fmt; Close],
                     Ok (output_path fn fmt))) →
  ∃ ps, (m ≫= f) =
        (map Draw ps ++ [Savefig (output_path fn fmt) fmt; Close], Ok (output_path fn fmt)).
Proof.
  intros (ps & a & ->) Hf. destruct (Hf a) as [ps' Hps']. exists (ps ++ ps').
  unfold mbind, Gen_bind. rewrite Hps', map_app, app_assoc. reflexivity.
Qed.

Lemma mkdir_then_saves (rest : Gen string) fn fmt :
  (∃ ps, rest = (map Draw ps ++ [Savefig (output_path fn fmt) fmt; Close],
                 Ok (output_path fn fmt))) →
  draws_then_saves fn fmt (emit (Mkdir output_dir) ;; rest).
Proof. intros [ps Hps]. exists ps. unfold mbind, Gen_bind, emit. rewrite Hps. reflexivity. Qed.

(** Proves [draws_only] for a body of drawing calls, [mret]s and branches. *)
Ltac draws_tac :=
  lazymatch goal with
  | |- draws_only (mret _) => apply draws_only_ret
  | |- draws_only (draw _) => apply draws_only_draw
  | |- draws_only (_ ≫= _) => apply draws_only_bind; [draws_tac | intros ?; draws_tac]
  | |- draws_only _ => case_match; draws_tac
  end.

(** Runs a [generate] body made of drawing steps and a final [save]. *)
Ltac saves_chain tac :=
  first [ apply saves_save
        | erewrite gen_nil_bind by reflexivity; saves_chain tac
        | apply saves_bind; [tac | intros ?; saves_chain tac] ].

Lemma in_enumerate {A} (x : A) l k :
  In x l → ∃ i, In (i, x) (zip (seq k (length l)) l).
Proof.
  revert k. induction l as [|y l IH]; intros k H; [contradiction|].
  destruct H as [->|H].
  - exists k. left. reflexivity.
  - destruct (IH (S k) H) as [i Hi]. exists i. right. exact Hi.
Qed.

Lemma fold_insert_keeps {A} (f : positions → A → positions) l pos n :
  (∀ p x, ∃ k v, f p x = <[k := v]> p) →
  is_Some (pos !! n) → is_Some (fold_left f l pos !! n).
Proof.
  revert pos. induction l as [|x l IH]; intros pos Hf Hn; simpl; [exact Hn|].
  apply IH; [exact Hf|]. destruct (Hf pos x) as (k & v & ->).
  destruct (decide (k = n)) as [->|Hne].
  - rewrite lookup_insert_eq. eexists. reflexivity.
  - rewrite lookup_insert_ne by exact Hne. exact Hn.
Qed.

Lemma fold_insert_is_Some {A} (key : A → string) (f : positions → nat * A → positions)
      (val : nat → A → Q * Q) l pos i x :
  (∀ p j a, f p (j, a) = <[key a := val j a]> p) →
  In (i, x) l → is_Some (fold_left f l pos !! key x).
Proof.
  intros Hf. revert pos. induction l as [|[j y] l IH]; intros pos H; [contradiction|].
  simpl. destruct H as [E|H].
  - injection E as -> ->. apply fold_insert_keeps.
    + intros p [j' a]. rewrite Hf. eexists _, _. reflexivity.
    + rewrite Hf, lookup_insert_eq. eexists. reflexivity.
  - apply IH, H.
Qed.

Lemma context_draws d :
  draws_only
    (draw (Title ("Context Diagram: " +:+ Context.system_name d)) ;;
     draw (Text 0 0 (Context.system_name d) (Some ("#f0f0f0", "black"))) ;;
     for_ (Context.draw_user d) (enumerate (Context.users d)) ;;
     for_ (Context.draw_external_system d) (enumerate (Context.external_systems d))).
Proof.
  repeat (apply draws_only_bind; [first [apply draws_only_draw | idtac] | intros _]).
  - apply draws_only_for. intros [i u] _. unfold Context.draw_user.
    repeat (apply draws_only_bind; [apply draws_only_draw | intros _]).
    repeat case_match; first [apply draws_only_draw | apply draws_only_ret].
  - apply draws_only_for. intros [i x] _. unfold Context.draw_external_system.
    apply draws_only_bind; [apply draws_only_draw | intros _].
    repeat case_match; simplify_eq;
      (apply draws_only_bind; [apply draws_only_draw | intros _]);
      first [apply draws_only_draw | apply draws_only_ret].
Qed.

Lemma context_users_draw d : draws_only (for_ (Context.draw_user d) (enumerate (Context.users d))).
Proof.
  apply draws_only_for. intros [i u] _. unfold Context.draw_user.
  repeat (apply draws_only_bind; [apply draws_only_draw | intros _]).
  repeat case_match; first [apply draws_only_draw | apply draws_only_ret].
Qed.

Lemma context_external_systems_draw d :
  draws_only (for_ (Context.draw_external_system d) (enumerate (Context.external_systems d))).
Proof.
  apply draws_only_for. intros [i x] _. unfold Context.draw_external_system.
  apply draws_only_bind; [apply draws_only_draw | intros _].
  repeat case_match; simplify_eq;
    (apply draws_only_bind; [apply draws_only_draw | intros _]);
    first [apply draws_only_draw | apply draws_only_ret].
Qed.

Section Saves.
Variables cosd sind : Q -> Q.

Lemma container_relationships_draw d pos :
  draws_only (for_ (Container.draw_relationship d pos) (Container.relationships d)).
Proof.
  apply draws_only_for. intros r _. unfold Container.draw_relationship.
  repeat case_match;
    first [ apply draws_only_ret
          | apply draws_only_bind; [apply draws_only_draw | intros _]; apply draws_only_draw ].
Qed.

Lemma container_boxes_draw step d :
  draws_only (fold_gen (Container.draw_container cosd sind step) ∅
                (enumerate (Container.containers d))).
Proof.
  apply draws_only_fold_gen. intros acc [i c]. unfold Container.draw_container.
  apply draws_only_bind; [apply draws_only_draw | intros _]. apply draws_only_ret.
Qed.

Lemma component_positions_ok d :
  Component.components d ≠ [] →
  Component.calculate_positions cosd sind d =
  Ok (fold_left (Component.place cosd sind (360 / Qnat (length (Component.components d))))
        (enumerate (Component.components d)) ∅).
Proof.
  intros Hne. unfold Component.calculate_positions.
  rewrite py_div_ok; [reflexivity|]. destruct (Component.components d); [congruence|simpl; lia].
Qed.

Lemma component_boxes_draw step d :
  draws_only (for_ (Component.draw_component
                      (fold_left (Component.place cosd sind step)
                         (enumerate (Component.components d)) ∅))
                (Component.components d)).
Proof.
  apply draws_only_for. intros c Hc. unfold Component.draw_component.
  destruct (in_enumerate c _ 0 Hc) as [i Hi].
  destruct (fold_insert_is_Some Component.name (Component.place cosd sind step)
              (λ j a, ((cosd (Qnat j * step) * Component.radius)%Q,
                       (sind (Qnat j * step) * Component.radius)%Q))
              _ ∅ i c (λ p j a, eq_refl) Hi) as [[x y] Hxy].
  unfold enumerate. rewrite Hxy. apply draws_only_draw.
Qed.

Lemma component_relationships_draw d pos :
  draws_only (for_ (Component.draw_relationship d pos) (Component.relationships d)).
Proof.
  apply draws_only_for. intros r _. unfold Component.draw_relationship.
  repeat case_match;
    first [ apply draws_only_ret
          | apply draws_only_bind; [apply draws_only_draw | intros _]; apply draws_only_draw ].
Qed.

End Saves.

(** X5: [generate] with a supported format at the context level, and with a
    non-empty collection at the container and component levels, completes without an
    exception: it creates the output directory, makes only drawing calls,
    then saves the figure exactly once, to
    ["diagrams_output/" + output_filename + "." + format], closes it, and
    returns that path. *)
Theorem generate_draws_then_saves (cosd sind : Q → Q) fmt :
  In fmt formats →
  (∀ d, draws_then_saves (Context.output_filename d) fmt (Context.generate d fmt)) ∧
  (∀ d, Container.containers d ≠ [] →
        draws_then_saves (Container.output_filename d) fmt
          (Container.generate cosd sind d fmt)) ∧
  (∀ d, Component.components d ≠ [] →
        draws_then_saves (Component.output_filename d) fmt
          (Component.generate cosd sind d fmt)).
Proof.
  intros Hfmt. split; [|split].
  - intros d. unfold Context.generate.
    erewrite gen_nil_bind by (apply check_format_ok; exact Hfmt).
    apply mkdir_then_saves.
    saves_chain ltac:(first [ apply draws_only_draw | apply context_users_draw
                            | apply context_external_systems_draw ]).
  - intros d Hne. unfold Container.generate.
    erewrite gen_nil_bind by (apply check_format_ok; exact Hfmt).
    rewrite bool_decide_false by exact Hne. erewrite gen_nil_bind by reflexivity.
    apply mkdir_then_saves.
    rewrite py_div_ok by (destruct (Container.containers d); [congruence|simpl; lia]).
    saves_chain ltac:(first [ apply draws_only_draw | apply container_boxes_draw
                            | apply container_relationships_draw ]).
  - intros d Hne. unfold Component.generate.
    erewrite gen_nil_bind by (apply check_format_ok; exact Hfmt).
    rewrite bool_decide_false by exact Hne. erewrite gen_nil_bind by reflexivity.
    apply mkdir_then_saves.
    rewrite component_positions_ok by exact Hne.
    saves_chain ltac:(first [ apply draws_only_draw | apply component_boxes_draw
                            | apply component_relationships_draw ]).
Qed.

Lemma generate_draws_then_saves_witness :
  draws_then_saves "shop" "png" (Context.generate shop_context "png") ∧
  draws_then_saves "shop" "png" (Container.generate (λ _, 0%Q) (λ _, 0%Q) shop_container "png") ∧
  draws_then_saves "api" "png" (Component.generate (λ _, 0%Q) (λ _, 0%Q) shop_component "png").
Proof.
  destruct (generate_draws_then_saves (λ _, 0%Q) (λ _, 0%Q) "png") as (H1 & H2 & H3).
  { simpl. left. reflexivity. }
  split; [|split].
  - apply (H1 shop_context).
  - apply (H2 shop_container). discriminate.
  - apply (H3 shop_component). discriminate.
Defined.

(** ** The arrows of the context level *)

(** X6: at the context level the arrow of an external system whose name
    differs from the system's is always drawn with direction 1: from its
    box at (4, y) towards the system at (1.5, 0.2 y), never reversed, whatever
    the relationships say. Only its style ("->" or "<->") depends on them. *)
Theorem external_system_arrow_never_reversed d idx x :
  Context.x_name x ≠ Context.system_name d →
  let y := Context.y_offset idx (length (Context.external_systems d))
             (Context.vertical_spacing d) in
  ∃ lbl style rest,
    Context.draw_external_system d (idx, x) =
    (Draw (Text 5 y lbl (Some ("#e8f5e9", "green"))) ::
     Draw (Arrow (1.5%Q, (y * 0.2)%Q) (4%Q, y) style "-" "green" 0) :: rest, Ok tt).
Proof.
  intros Hne y. unfold Context.draw_external_system. fold y.
  destruct (Context.find_relationship (Context.system_name d) (Context.x_name x)
              (Context.relationships d)) as [r|] eqn:Hr.
  - assert (Hdir : (if Context.bidirectional r then ("<->", 1%Q)
                    else if String.eqb (Context.source r) (Context.x_name x) then ("->", (-1)%Q)
                    else ("->", 1%Q)) =
                   ((if Context.bidirectional r then "<->" else "->"), 1%Q)).
    { destruct (Context.bidirectional r) eqn:Eb; [reflexivity|].
      apply find_relationship_found in Hr as [[Hs _]|[Hb _]]; [|congruence].
      rewrite Hs. apply String.eqb_neq in Hne. rewrite String.eqb_sym, Hne. reflexivity. }
    rewrite Hdir. eexists _, _, _. reflexivity.
  - eexists _, _, _. reflexivity.
Qed.

Lemma external_system_arrow_never_reversed_witness :
  ∃ lbl style rest,
    Context.draw_external_system
      (Context.mk_diagram "Shop" "shop" [] [Context.mk_external_system "Bank" None None]
         [Context.mk_relationship "Bank" "Shop" "pays" false]) (0, Context.mk_external_system "Bank" None None) =
    (Draw (Text 5 (Context.y_offset 0 1 (Context.vertical_spacing
             (Context.mk_diagram "Shop" "shop" [] [Context.mk_external_system "Bank" None None]
                [Context.mk_relationship "Bank" "Shop" "pays" false])))
             lbl (Some ("#e8f5e9", "green"))) ::
     Draw (Arrow (1.5%Q, (Context.y_offset 0 1 (Context.vertical_spacing
             (Context.mk_diagram "Shop" "shop" [] [Context.mk_external_system "Bank" None None]
                [Context.mk_relationship "Bank" "Shop" "pays" false])) * 0.2)%Q)
             (4%Q, Context.y_offset 0 1 (Context.vertical_spacing
             (Context.mk_diagram "Shop" "shop" [] [Context.mk_external_system "Bank" None None]
                [Context.mk_relationship "Bank" "Shop" "pays" false]))) style "-" "green" 0) ::
     rest, Ok tt).
Proof.
  apply (external_system_arrow_never_reversed
           (Context.mk_diagram "Shop" "shop" [] [Context.mk_external_system "Bank" None None]
              [Context.mk_relationship "Bank" "Shop" "pays" false])
           0 (Context.mk_external_system "Bank" None None)).
  discriminate.
Defined.

Lemma find_relationship_append_skip s t l r :
  (String.eqb (Context.source r) s && String.eqb (Context.target r) t) = false →
  Context.bidirectional r = false →
  Context.find_relationship s t (l ++ [r]) = Context.find_relationship s t l.
Proof.
  intros H1 H2. rewrite (find_relationship_skip s t l r []); [now rewrite app_nil_r|exact H1|].
  now rewrite H2.
Qed.

Lemma for_gen_ext_in {A} (f g : A → Gen unit) l :
  (∀ x, In x l → f x = g x) → for_ f l = for_ g l.
Proof.
  induction l as [|x l IH]; intros H; simpl; [reflexivity|].
  rewrite (H x (or_introl eq_refl)). apply gen_bind_ext. intros _.
  apply IH. intros y Hy. apply H. right. exact Hy.
Qed.

Lemma eqb_pair_true a b c d : (String.eqb a b && String.eqb c d) = true → a = b ∧ c = d.
Proof. intros H. apply andb_true_iff in H as [H1 H2]. now apply String.eqb_eq in H1, H2. Qed.

(** X7: a context relationship that is not bidirectional shows in the
    drawing only if it goes from a user to the system or from the system to
    an external system. Any other one, for example from an external system
    to the system, can be added with [add_relationship] without changing
    anything [generate] draws, saves or returns. *)
Theorem context_relationship_invisible d r fmt :
  Context.bidirectional r = false →
  ¬ (In (Context.source r) (map Context.u_name (Context.users d)) ∧
     Context.target r = Context.system_name d) →
  ¬ (Context.source r = Context.system_name d ∧
     In (Context.target r) (map Context.x_name (Context.external_systems d))) →
  Context.generate (Context.push_relationship r d) fmt = Context.generate d fmt.
Proof.
  intros Hb Hu Hx.
  assert (Eu : for_ (Context.draw_user (Context.push_relationship r d))
                 (enumerate (Context.users d)) =
               for_ (Context.draw_user d) (enumerate (Context.users d))).
  { apply for_gen_ext_in. intros [i u] Hin. apply in_zip_snd in Hin. cbn [snd] in Hin.
    unfold Context.draw_user, Context.find_relationship_label.
    cbn [Context.push_relationship Context.relationships Context.system_name].
    rewrite find_relationship_append_skip; [reflexivity| |exact Hb].
    destruct (_ && _) eqn:E; [|reflexivity]. exfalso.
    apply eqb_pair_true in E as [E1 E2]. apply Hu. split; [|exact E2].
    rewrite E1. apply in_map. exact Hin. }
  assert (Ex : for_ (Context.draw_external_system (Context.push_relationship r d))
                 (enumerate (Context.external_systems d)) =
               for_ (Context.draw_external_system d) (enumerate (Context.external_systems d))).
  { apply for_gen_ext_in. intros [i x] Hin. apply in_zip_snd in Hin. cbn [snd] in Hin.
    unfold Context.draw_external_system.
    cbn [Context.push_relationship Context.relationships Context.system_name].
    rewrite find_relationship_append_skip; [reflexivity| |exact Hb].
    destruct (_ && _) eqn:E; [|reflexivity]. exfalso.
    apply eqb_pair_true in E as [E1 E2]. apply Hx. split; [exact E1|].
    rewrite E2. apply in_map. exact Hin. }
  unfold Context.generate.
  cbn [Context.push_relationship Context.users Context.external_systems Context.system_name
       Context.output_filename].
  rewrite Eu, Ex. reflexivity.
Qed.

Lemma context_relationship_invisible_witness :
  Context.generate
    (Context.push_relationship (Context.mk_relationship "Bank" "Shop" "pays" false)
       (Context.mk_diagram "Shop" "shop" [Context.mk_user "Admin" None None]
          [Context.mk_external_system "Bank" None None] [])) "png" =
  Context.generate
    (Context.mk_diagram "Shop" "shop" [Context.mk_user "Admin" None None]
       [Context.mk_external_system "Bank" None None] []) "png".
Proof.
  apply context_relationship_invisible.
  - reflexivity.
  - simpl. intros [[H|[]] _]. discriminate H.
  - simpl. intros [H _]. discriminate H.
Defined.

(** ** Importing C4.py *)

(** X8: C4.py does not compile. Its tokenizer pass stops at the end of the
    file with the parenthesis opened on line 240 still open, so
    [import C4], and with it [from C4 import C4CodeDiagram] in app.py and
    api_server.py, raises [SyntaxError: '(' was never closed] with
    [lineno] 240. *)
Theorem C4_import_raises_syntax_error :
  import_C4 = Err (SyntaxError "'(' was never closed" 240).
Proof. vm_compute. reflexivity. Qed.
